(** * The OpenCog bridge of the Influent flow-analytics platform

    A shallow embedding of [opencog_bridge.py]: the two module globals
    ([atomspace], [opencog_available]), the thirteen bridge functions with
    their mock and real branches, and the command-line dispatcher [main].

    Python exceptions are values of [exn] carried by [result]; the module
    globals, the log written through [logger] and the lines printed on
    standard output are threaded explicitly in a [process] record. *)

From Stdlib Require Import List String Ascii Bool ZArith QArith Lia DecimalString.
Import ListNotations.

Close Scope Q_scope.
Open Scope string_scope.
Open Scope Z_scope.

Set Implicit Arguments.

(** ** Python and JSON values *)

(** A decoded JSON document, as [json.loads] builds it and [json.dumps]
    prints it.  A Python [int] is a [Z]; a finite Python [float] is the
    rational it denotes.  An object keeps its keys in insertion order. *)
#[warnings="-register-all"]
Inductive json : Type :=
| JNull
| JBool (b : bool)
| JInt (n : Z)
| JFloat (q : Q)
| JStr (s : string)
| JArr (items : list json)
| JObj (fields : list (string * json)).

(** The kind of a JSON value: what a consumer can tell from one level of
    the document (both [int] and [float] print as JSON numbers). *)
Inductive kind : Type := KNull | KBool | KNumber | KString | KArray | KObject.

Definition kind_of (v : json) : kind :=
  match v with
  | JNull => KNull
  | JBool _ => KBool
  | JInt _ | JFloat _ => KNumber
  | JStr _ => KString
  | JArr _ => KArray
  | JObj _ => KObject
  end.

Definition kind_eqb (a b : kind) : bool :=
  match a, b with
  | KNull, KNull | KBool, KBool | KNumber, KNumber
  | KString, KString | KArray, KArray | KObject, KObject => true
  | _, _ => false
  end.

(** [d[key]] on the fields of a dict, and [d.get(key)]. *)
Fixpoint lookup (key : string) (fields : list (string * json)) : option json :=
  match fields with
  | [] => None
  | (k, v) :: rest => if String.eqb k key then Some v else lookup key rest
  end.

Definition field (key : string) (v : json) : option json :=
  match v with
  | JObj fields => lookup key fields
  | _ => None
  end.

(** The shape of a record: its keys, each with the kind of its value. *)
Definition shape := list (string * kind).

Definition shape_of (v : json) : option shape :=
  match v with
  | JObj fields => Some (map (fun kv => (fst kv, kind_of (snd kv))) fields)
  | _ => None
  end.

Definition keys_of (v : json) : list string :=
  match v with
  | JObj fields => map fst fields
  | _ => []
  end.

(** ** Strings: [str.lower] and the substring test [in] *)

(** Strings are byte strings, and [lower] folds the letters A to Z, which
    is what [str.lower] does on ASCII text; on text outside ASCII
    [str.lower] folds more.  The theorems below use of [lower] only that
    lowering twice is lowering once. *)

Definition lower_ascii (c : ascii) : ascii :=
  let n := nat_of_ascii c in
  if (65 <=? n)%nat && (n <=? 90)%nat then ascii_of_nat (n + 32) else c.

Fixpoint lower (s : string) : string :=
  match s with
  | EmptyString => EmptyString
  | String c rest => String (lower_ascii c) (lower rest)
  end.

(** [needle in hay] on two Python strings. *)
Fixpoint contains (needle hay : string) : bool :=
  String.prefix needle hay ||
  match hay with
  | EmptyString => false
  | String _ rest => contains needle rest
  end.

(** ** Exceptions and results *)

(** The subclasses of [Exception] the bridge can meet.  [BackendError]
    stands for whatever else the reasoning library raises. *)
Inductive exn : Type :=
| ImportError (msg : string)
| AttributeError (msg : string)
| KeyError (key : string)
| TypeError (msg : string)
| ValueError (msg : string)
| BackendError (msg : string).

(** [str(e)], as the f-strings of the log messages print it. *)
Definition exn_str (e : exn) : string :=
  match e with
  | ImportError m | AttributeError m | TypeError m
  | ValueError m | BackendError m => m
  | KeyError k => "'" ++ k ++ "'"
  end.

Inductive result (A : Type) : Type :=
| Ok (a : A)
| Raise (e : exn).

Arguments Ok {A} a.
Arguments Raise {A} e.

(** What calling a method on the global [atomspace] raises once the global
    is [None]. *)
Definition none_has_no (attr : string) : exn :=
  AttributeError ("'NoneType' object has no attribute '" ++ attr ++ "'").

(** ** The reasoning collaborator

    The bridge reaches the OpenCog library through a handful of calls: the
    type constructors [tc.ConceptNode], [tc.PredicateNode], [tc.ListLink]
    and [tc.EvaluationLink], and on the store [add_atom],
    [get_atoms_by_type], [get_incoming], [in] and [clear].  The store is
    modelled as the list of the atoms it holds, one entry per atom, each
    with its truth value and its short-term importance.

    The library is not part of the repository.  What follows is the
    behaviour the bridge is written against: a call on a store that is in
    place returns, an atom added twice is held once, and an atom the
    bridge adds starts at importance 0.  A call that fails inside the
    library is outside the model; the bridge's [except] clauses are
    followed for the failures the bridge itself can cause, a method call
    on [None] and a comparison of ill-typed arguments. *)

Inductive Atom : Type :=
| ConceptNode (name : string)
| PredicateNode (name : string)
| ListLink (a b : Atom)
| EvaluationLink (predicate arguments : Atom).

Definition Atom_eq_dec (a b : Atom) : {a = b} + {a <> b}.
Proof. decide equality; apply string_dec. Defined.

Definition Atom_eqb (a b : Atom) : bool :=
  if Atom_eq_dec a b then true else false.

Definition outgoing (a : Atom) : list Atom :=
  match a with
  | ConceptNode _ | PredicateNode _ => []
  | ListLink x y | EvaluationLink x y => [x; y]
  end.

Record TruthValue : Type := { mean : Q; confidence : Q }.

Definition DefaultTruthValue : TruthValue := {| mean := 1; confidence := 0 |}.

Record Stored : Type := { atom : Atom; tv : TruthValue; asti : Q }.

Definition AtomSpace : Type := list Stored.

(** [atom in atomspace] *)
Definition holds (a : Atom) (sp : AtomSpace) : bool :=
  existsb (fun s => Atom_eqb (atom s) a) sp.

(** The entry of an atom, when the store holds it. *)
Definition stored (a : Atom) (sp : AtomSpace) : option Stored :=
  find (fun s => Atom_eqb (atom s) a) sp.

Definition set_tv (a : Atom) (t : TruthValue) (sp : AtomSpace) : AtomSpace :=
  map (fun s => if Atom_eqb (atom s) a
                then {| atom := atom s; tv := t; asti := asti s |}
                else s) sp.

(** One atom enters the store: a new entry at the end when the atom is
    new, and the truth value it carries (if one was assigned) in both
    cases. *)
Definition insert (a : Atom) (t : option TruthValue) (sp : AtomSpace) : AtomSpace :=
  if holds a sp then
    match t with
    | Some v => set_tv a v sp
    | None => sp
    end
  else
    (sp ++ [{| atom := a;
               tv := match t with Some v => v | None => DefaultTruthValue end;
               asti := 0%Q |}])%list.

(** [atomspace.add_atom(a)]: the atoms a link points at enter the store
    with it. *)
Fixpoint add_atom (a : Atom) (t : option TruthValue) (sp : AtomSpace) : AtomSpace :=
  match a with
  | ConceptNode _ | PredicateNode _ => insert a t sp
  | ListLink x y | EvaluationLink x y =>
      insert a t (add_atom y None (add_atom x None sp))
  end.

(** [atomspace.get_atoms_by_type(types.Atom)]: every entry. *)
Definition get_atoms_by_type (sp : AtomSpace) : list Stored := sp.

(** [atomspace.get_incoming(a)]: the stored atoms that point at [a]. *)
Definition get_incoming (a : Atom) (sp : AtomSpace) : list Atom :=
  map atom (filter (fun s => existsb (Atom_eqb a) (outgoing (atom s))) sp).

(** [atomspace.clear()] *)
Definition clear (sp : AtomSpace) : AtomSpace := [].

(** ** The process: module globals, log and monad *)

Inductive level : Type := INFO | WARNING | ERROR.

(** A record written through [logger].  The module configures the level
    [INFO], so [logger.debug] writes nothing and is left out below.
    [Trace e] is the text of [traceback.format_exc()] for [e]. *)
Inductive entry : Type :=
| Message (lvl : level) (text : string)
| Trace (e : exn).

Record process : Type := {
  atomspace : option AtomSpace;
  opencog_available : bool;
  log : list entry
}.

(** The module as the interpreter loads it:
    [atomspace = None], [opencog_available = False]. *)
Definition startup : process :=
  {| atomspace := None; opencog_available := false; log := [] |}.

Definition M (A : Type) : Type := process -> result A * process.

Definition ret {A} (a : A) : M A := fun p => (Ok a, p).

Definition raise {A} (e : exn) : M A := fun p => (Raise e, p).

Definition bind {A B} (c : M A) (k : A -> M B) : M B :=
  fun p =>
    match c p with
    | (Ok a, p') => k a p'
    | (Raise e, p') => (Raise e, p')
    end.

Notation "x <- c ;; k" := (bind c (fun x => k))
  (at level 61, c at next level, right associativity).
Notation "c ;;; k" := (bind c (fun _ => k))
  (at level 61, right associativity).

Definition emit (lvl : level) (text : string) : M unit :=
  fun p => (Ok tt, {| atomspace := atomspace p;
                      opencog_available := opencog_available p;
                      log := (log p ++ [Message lvl text])%list |}).

Definition emit_trace (e : exn) : M unit :=
  fun p => (Ok tt, {| atomspace := atomspace p;
                      opencog_available := opencog_available p;
                      log := (log p ++ [Trace e])%list |}).

Definition set_atomspace (sp : option AtomSpace) : M unit :=
  fun p => (Ok tt, {| atomspace := sp;
                      opencog_available := opencog_available p;
                      log := log p |}).

Definition set_available (b : bool) : M unit :=
  fun p => (Ok tt, {| atomspace := atomspace p;
                      opencog_available := b;
                      log := log p |}).

Definition available : M bool := fun p => (Ok (opencog_available p), p).

(** The global [atomspace] as the receiver of a method call: the call
    raises when the global is [None]. *)
Definition receiver (attr : string) : M AtomSpace :=
  fun p =>
    match atomspace p with
    | Some sp => (Ok sp, p)
    | None => (Raise (none_has_no attr), p)
    end.

(** [try: body  except Exception as e: logger.error(msg e); raise] *)
Definition logged {A} (msg : exn -> string) (body : M A) : M A :=
  fun p =>
    match body p with
    | (Raise e, p') => (Raise e, snd (emit ERROR (msg e) p'))
    | r => r
    end.

Definition Qgtb (a b : Q) : bool := negb (Qle_bool a b).

(** ** The bridge functions *)

Section Bridge.

(** What the Python binding shows of an atom, left opaque:
    [str(atom.h)], [str(atom)], and [str(link.get_predicate())] for a link
    that has the attribute [get_predicate] ([None] when [hasattr] is
    false). *)
Variable handle_of : Atom -> string.
Variable atom_str : Atom -> string.
Variable get_predicate : Atom -> option string.

(** Python's [str] on a decoded JSON value. *)
Variable py_str : json -> string.

(** How the import and the initialisation of the OpenCog modules end in
    [initialize_opencog]. *)
Inductive acquisition : Type :=
| ImportRaises (e : exn)
| ConstructorRaises (e : exn)
| InitializerRaises (e : exn)
| Acquired.

(** The two [except] clauses of [initialize_opencog]. *)
Definition demote (e : exn) : M bool :=
  match e with
  | ImportError msg =>
      emit WARNING ("OpenCog not available, using mock implementation: " ++ msg) ;;;
      set_available false ;;;
      ret false
  | _ =>
      emit ERROR ("Failed to initialize OpenCog: " ++ exn_str e) ;;;
      set_available false ;;;
      ret false
  end.

Definition initialize_opencog (world : acquisition) : M bool :=
  match world with
  | ImportRaises e => demote e
  | ConstructorRaises e => demote e
  | InitializerRaises e =>
      set_atomspace (Some []) ;;;
      demote e
  | Acquired =>
      set_atomspace (Some []) ;;;
      set_available true ;;;
      emit INFO "OpenCog successfully initialized" ;;;
      ret true
  end.

Definition initialize_atomspace : M string :=
  b <- available ;;
  if negb b then
    emit INFO "Using mock AtomSpace initialization" ;;;
    ret "mock_atomspace_id"
  else
    logged (fun e => "AtomSpace initialization failed: " ++ exn_str e)
      (emit INFO "Initializing AtomSpace for transaction flow analytics" ;;;
       ret "atomspace_initialized").

(** [atomspace.add_atom(a)] on the global. *)
Definition store (a : Atom) (t : option TruthValue) : M unit :=
  sp <- receiver "add_atom" ;;
  set_atomspace (Some (add_atom a t sp)).

Definition create_concept_node (concept : string) : M string :=
  b <- available ;;
  if negb b then
    ret ("mock_concept_" ++ concept)
  else
    logged (fun e => "Failed to create concept node " ++ concept ++ ": " ++ exn_str e)
      (let node := ConceptNode concept in
       store node None ;;;
       ret (handle_of node)).

Definition create_predicate_node (predicate : string) : M string :=
  b <- available ;;
  if negb b then
    ret ("mock_predicate_" ++ predicate)
  else
    logged (fun e => "Failed to create predicate node " ++ predicate ++ ": " ++ exn_str e)
      (let node := PredicateNode predicate in
       store node None ;;;
       ret (handle_of node)).

(** The evaluation link one property of an entity becomes. *)
Definition property_link (entity_node : Atom) (prop : string * json) : Atom :=
  let pred_node := PredicateNode ("has_" ++ fst prop) in
  let value_node := ConceptNode (py_str (snd prop)) in
  EvaluationLink pred_node (ListLink entity_node value_node).

(** The loop over [properties.items()]. *)
Fixpoint add_properties (entity_node : Atom) (properties : list (string * json)) : M unit :=
  match properties with
  | [] => ret tt
  | prop :: rest =>
      store (property_link entity_node prop) None ;;;
      add_properties entity_node rest
  end.

Definition add_transaction_entity (entity_id : string)
    (properties : list (string * json)) : M string :=
  b <- available ;;
  if negb b then
    ret ("mock_entity_" ++ entity_id)
  else
    logged (fun e => "Failed to add transaction entity " ++ entity_id ++ ": " ++ exn_str e)
      (let entity_node := ConceptNode ("entity_" ++ entity_id) in
       store entity_node None ;;;
       add_properties entity_node properties ;;;
       ret (handle_of entity_node)).

Definition create_relationship (predicate from_entity to_entity : string)
    (strength : Q) : M string :=
  b <- available ;;
  if negb b then
    ret ("mock_relationship_" ++ predicate ++ "_" ++ from_entity ++ "_" ++ to_entity)
  else
    logged (fun e => "Failed to create relationship: " ++ exn_str e)
      (let from_node := ConceptNode from_entity in
       let to_node := ConceptNode to_entity in
       let pred_node := PredicateNode predicate in
       let eval_link := EvaluationLink pred_node (ListLink from_node to_node) in
       store eval_link (Some {| mean := strength; confidence := (9 # 10)%Q |}) ;;;
       ret (handle_of eval_link)).

(** The handles of the atoms whose string form contains the pattern,
    both in lower case. *)
Definition matching (pattern : string) (atoms : list Stored) : list string :=
  map (fun s => handle_of (atom s))
      (filter (fun s => contains (lower pattern) (lower (atom_str (atom s)))) atoms).

Definition execute_pattern_matching (pattern : string) : M (list json) :=
  b <- available ;;
  if negb b then
    ret [JObj [("pattern", JStr pattern);
               ("matches", JArr [JStr "mock_match_1"; JStr "mock_match_2"]);
               ("confidence", JFloat (17 # 20)%Q)]]
  else
    logged (fun e => "Pattern matching failed for pattern '" ++ pattern ++ "': " ++ exn_str e)
      (sp <- receiver "get_atoms_by_type" ;;
       let atoms := get_atoms_by_type sp in
       let matching_atoms := matching pattern atoms in
       ret (match matching_atoms with
            | [] => []
            | _ :: _ =>
                [JObj [("pattern", JStr pattern);
                       ("matches", JArr (map JStr (firstn 10 matching_atoms)));
                       ("confidence", JFloat (4 # 5)%Q);
                       ("count", JInt (Z.of_nat (List.length matching_atoms)))]]
            end)).

Definition run_pln_inference (query : string) (max_steps : Z) : M (list json) :=
  b <- available ;;
  if negb b then
    ret [JObj [("query", JStr query);
               ("inference_result", JStr "mock_inference_result");
               ("confidence", JFloat (3 # 4)%Q);
               ("steps", JInt (Z.min max_steps 5))]]
  else
    logged (fun e => "PLN inference failed for query '" ++ query ++ "': " ++ exn_str e)
      (ret [JObj [("query", JStr query);
                  ("inference_result", JStr ("inferred_from_" ++ query));
                  ("confidence", JFloat (7 # 10)%Q);
                  ("steps", JInt (Z.min max_steps 3));
                  ("reasoning_path", JArr [JStr "step1"; JStr "step2"; JStr "conclusion"])]]).

(** Python checks no annotation: [main] hands [run_pln_inference] whatever
    JSON values the payload holds.  The function calls nothing of the
    library, so what it does with them is decided here.  [min(max_steps, cap)]
    returns [max_steps] unless [cap < max_steps], and the comparison of an
    [int] with a string, [None], a list or a dict raises [TypeError]. *)
Definition py_min (max_steps : json) (cap : Z) : result json :=
  match max_steps with
  | JInt n => Ok (JInt (Z.min n cap))
  | JFloat q => Ok (if Qgtb q (inject_Z cap) then JInt cap else JFloat q)
  | JBool b => Ok (JBool b)
  | JStr _ =>
      Raise (TypeError "'<' not supported between instances of 'int' and 'str'")
  | JNull =>
      Raise (TypeError "'<' not supported between instances of 'int' and 'NoneType'")
  | JArr _ =>
      Raise (TypeError "'<' not supported between instances of 'int' and 'list'")
  | JObj _ =>
      Raise (TypeError "'<' not supported between instances of 'int' and 'dict'")
  end.

(** A value inside an f-string: a string as it is, anything else through
    [str]. *)
Definition formatted (v : json) : string :=
  match v with
  | JStr s => s
  | _ => py_str v
  end.

Definition run_pln_inference_untyped (query max_steps : json) : M (list json) :=
  b <- available ;;
  if negb b then
    match py_min max_steps 5 with
    | Raise e => raise e
    | Ok steps =>
        ret [JObj [("query", query);
                   ("inference_result", JStr "mock_inference_result");
                   ("confidence", JFloat (3 # 4)%Q);
                   ("steps", steps)]]
    end
  else
    logged (fun e => "PLN inference failed for query '" ++ formatted query ++ "': "
                     ++ exn_str e)
      match py_min max_steps 3 with
      | Raise e => raise e
      | Ok steps =>
          ret [JObj [("query", query);
                     ("inference_result", JStr ("inferred_from_" ++ formatted query));
                     ("confidence", JFloat (7 # 10)%Q);
                     ("steps", steps);
                     ("reasoning_path",
                      JArr [JStr "step1"; JStr "step2"; JStr "conclusion"])]]
      end.

(** The record [detect_anomalies] appends for one atom. *)
Definition anomaly (s : Stored) : json :=
  JObj [("atom_id", JStr (handle_of (atom s)));
        ("anomaly_score", JFloat (asti s));
        ("anomaly_type", JStr "high_attention");
        ("description",
         JStr ("Atom " ++ atom_str (atom s) ++ " has unusually high attention value"))].

Definition detect_anomalies (threshold : Q) : M (list json) :=
  b <- available ;;
  if negb b then
    ret [JObj [("entity_id", JStr "mock_entity_1");
               ("anomaly_score", JFloat (19 # 20)%Q);
               ("anomaly_type", JStr "unusual_transaction_pattern");
               ("description", JStr "Mock anomaly detection result")]]
  else
    logged (fun e => "Anomaly detection failed: " ++ exn_str e)
      (sp <- receiver "get_atoms_by_type" ;;
       let atoms := get_atoms_by_type sp in
       ret (map anomaly (filter (fun s => Qgtb (asti s) threshold) atoms))).

(** The global [atomspace] as the right operand of [in]. *)
Definition container : M AtomSpace :=
  fun p =>
    match atomspace p with
    | Some sp => (Ok sp, p)
    | None => (Raise (TypeError "argument of type 'NoneType' is not iterable"), p)
    end.

(** The loop over [incoming] that collects the predicate names
    containing "behavior". *)
Fixpoint behavioral (incoming : list Atom) : list string :=
  match incoming with
  | [] => []
  | link :: rest =>
      match get_predicate link with
      | Some pred_name =>
          if contains "behavior" (lower pred_name)
          then pred_name :: behavioral rest
          else behavioral rest
      | None => behavioral rest
      end
  end.

Definition get_cognitive_insights (entity_id : string) : M json :=
  b <- available ;;
  if negb b then
    ret (JObj [("entity_id", JStr entity_id);
               ("behavioral_patterns", JArr [JStr "mock_pattern_1"; JStr "mock_pattern_2"]);
               ("cognitive_score", JFloat (4 # 5)%Q);
               ("attention_level", JFloat (3 # 5)%Q);
               ("relationship_count", JInt 5)])
  else
    logged (fun e => "Failed to get cognitive insights for entity " ++ entity_id
                     ++ ": " ++ exn_str e)
      (let entity_node := ConceptNode ("entity_" ++ entity_id) in
       sp <- container ;;
       let '(attention_level, cognitive_score) :=
         match stored entity_node sp with
         | Some s => (asti s, mean (tv s))
         | None => (0%Q, 0%Q)
         end in
       sp' <- receiver "get_incoming" ;;
       let incoming := get_incoming entity_node sp' in
       ret (JObj [("entity_id", JStr entity_id);
                  ("behavioral_patterns", JArr (map JStr (behavioral incoming)));
                  ("cognitive_score", JFloat cognitive_score);
                  ("attention_level", JFloat attention_level);
                  ("relationship_count", JInt (Z.of_nat (List.length incoming)))])).

Definition clear_atomspace : M unit :=
  b <- available ;;
  if negb b then
    emit INFO "Mock AtomSpace cleared"
  else
    logged (fun e => "Failed to clear AtomSpace: " ++ exn_str e)
      (sp <- receiver "clear" ;;
       set_atomspace (Some (clear sp)) ;;;
       emit INFO "AtomSpace cleared").

Definition test_connection : M string := ret "OK".

Definition get_opencog_version : M string :=
  b <- available ;;
  if negb b then ret "OpenCog not available (mock mode)"
  else ret "OpenCog 5.0.3 (via Python bridge)".

(** [shutdown] clears the store when there is one and the library is
    available, then drops the handle; an empty store is left empty
    whether or not Python takes it for true. *)
Definition shutdown : M unit :=
  emit INFO "Shutting down OpenCog bridge" ;;;
  (fun p =>
     match atomspace p with
     | Some sp =>
         if opencog_available p then set_atomspace (Some (clear sp)) p
         else ret tt p
     | None => ret tt p
     end) ;;;
  set_atomspace None.

(** ** The operation set *)

(** What a bridge function hands back: a string, a dict or list (printed
    through [json.dumps]), or [None]. *)
Inductive value : Type :=
| Text (s : string)
| Data (v : json)
| NoValue.

Definition text (c : M string) : M value := s <- c ;; ret (Text s).
Definition rows (c : M (list json)) : M value := l <- c ;; ret (Data (JArr l)).
Definition dict (c : M json) : M value := d <- c ;; ret (Data d).
Definition silent (c : M unit) : M value := c ;;; ret NoValue.

(** One call of a bridge function with arguments of its annotated
    types. *)
Inductive call : Type :=
| InitializeAtomspace
| CreateConceptNode (concept : string)
| CreatePredicateNode (predicate : string)
| AddTransactionEntity (entity_id : string) (properties : list (string * json))
| CreateRelationship (predicate from_entity to_entity : string) (strength : Q)
| ExecutePatternMatching (pattern : string)
| RunPlnInference (query : string) (max_steps : Z)
| DetectAnomalies (threshold : Q)
| GetCognitiveInsights (entity_id : string)
| ClearAtomspace
| TestConnection
| GetOpencogVersion
| Shutdown.

Definition invoke (c : call) : M value :=
  match c with
  | InitializeAtomspace => text initialize_atomspace
  | CreateConceptNode concept => text (create_concept_node concept)
  | CreatePredicateNode predicate => text (create_predicate_node predicate)
  | AddTransactionEntity entity_id properties =>
      text (add_transaction_entity entity_id properties)
  | CreateRelationship predicate from_entity to_entity strength =>
      text (create_relationship predicate from_entity to_entity strength)
  | ExecutePatternMatching pattern => rows (execute_pattern_matching pattern)
  | RunPlnInference query max_steps => rows (run_pln_inference query max_steps)
  | DetectAnomalies threshold => rows (detect_anomalies threshold)
  | GetCognitiveInsights entity_id => dict (get_cognitive_insights entity_id)
  | ClearAtomspace => silent clear_atomspace
  | TestConnection => text test_connection
  | GetOpencogVersion => text get_opencog_version
  | Shutdown => silent shutdown
  end.

(** ** The dispatcher *)

(** [json.loads]; it raises a [ValueError] on a malformed document. *)
Variable json_loads : string -> result json.

(** [parameters[key]] *)
Definition subscript (parameters : json) (key : string) : result json :=
  match parameters with
  | JObj fields =>
      match lookup key fields with
      | Some v => Ok v
      | None => Raise (KeyError key)
      end
  | JArr _ => Raise (TypeError "list indices must be integers or slices, not str")
  | JStr _ => Raise (TypeError "string indices must be integers, not 'str'")
  | JInt _ => Raise (TypeError "'int' object is not subscriptable")
  | JFloat _ => Raise (TypeError "'float' object is not subscriptable")
  | JBool _ => Raise (TypeError "'bool' object is not subscriptable")
  | JNull => Raise (TypeError "'NoneType' object is not subscriptable")
  end.

Definition as_str (v : json) : option string :=
  match v with JStr s => Some s | _ => None end.

Definition as_int (v : json) : option Z :=
  match v with JInt n => Some n | _ => None end.

Definition as_float (v : json) : option Q :=
  match v with
  | JFloat q => Some q
  | JInt n => Some (inject_Z n)
  | _ => None
  end.

Definition as_dict (v : json) : option (list (string * json)) :=
  match v with JObj fields => Some fields | _ => None end.

(** [main] evaluates the subscripts of a call from left to right before
    it enters the function, so the first field missing raises its
    [KeyError] whatever the other fields hold. *)
Definition reading {B : Type} (parameters : json) (key : string)
    (k : json -> option (M B)) : option (M B) :=
  match subscript parameters key with
  | Raise e => Some (raise e)
  | Ok v => k v
  end.

(** The functions above take arguments of their annotated types.  Once
    every field is read, a field of another type would be handed to the
    function as it is; what the library then does with it is not in the
    source, and the embedding stops there: [dispatch] answers [None].
    [run_pln_inference] alone, which calls nothing of the library, is
    followed on every value. *)
Definition typed {A B : Type} (as_type : json -> option A) (v : json)
    (k : A -> option (M B)) : option (M B) :=
  match as_type v with
  | Some a => k a
  | None => None
  end.

(** The [if]/[elif] chain of [main]. *)
Definition dispatch (function_name : string) (parameters : json) : option (M value) :=
  if String.eqb function_name "initialize_atomspace" then
    Some (text initialize_atomspace)
  else if String.eqb function_name "create_concept_node" then
    reading parameters "concept" (fun v =>
    typed as_str v (fun concept =>
    Some (text (create_concept_node concept))))
  else if String.eqb function_name "create_predicate_node" then
    reading parameters "predicate" (fun v =>
    typed as_str v (fun predicate =>
    Some (text (create_predicate_node predicate))))
  else if String.eqb function_name "add_transaction_entity" then
    reading parameters "entity_id" (fun v1 =>
    reading parameters "properties" (fun v2 =>
    typed as_str v1 (fun entity_id =>
    typed as_dict v2 (fun properties =>
    Some (text (add_transaction_entity entity_id properties))))))
  else if String.eqb function_name "create_relationship" then
    reading parameters "predicate" (fun v1 =>
    reading parameters "from_entity" (fun v2 =>
    reading parameters "to_entity" (fun v3 =>
    reading parameters "strength" (fun v4 =>
    typed as_str v1 (fun predicate =>
    typed as_str v2 (fun from_entity =>
    typed as_str v3 (fun to_entity =>
    typed as_float v4 (fun strength =>
    Some (text (create_relationship predicate from_entity to_entity strength))))))))))
  else if String.eqb function_name "execute_pattern_matching" then
    reading parameters "pattern" (fun v =>
    typed as_str v (fun pattern =>
    Some (rows (execute_pattern_matching pattern))))
  else if String.eqb function_name "run_pln_inference" then
    reading parameters "query" (fun v1 =>
    reading parameters "max_steps" (fun v2 =>
    match as_str v1, as_int v2 with
    | Some query, Some max_steps => Some (rows (run_pln_inference query max_steps))
    | _, _ => Some (rows (run_pln_inference_untyped v1 v2))
    end))
  else if String.eqb function_name "detect_anomalies" then
    reading parameters "threshold" (fun v =>
    typed as_float v (fun threshold =>
    Some (rows (detect_anomalies threshold))))
  else if String.eqb function_name "get_cognitive_insights" then
    reading parameters "entity_id" (fun v =>
    typed as_str v (fun entity_id =>
    Some (dict (get_cognitive_insights entity_id))))
  else if String.eqb function_name "clear_atomspace" then
    Some (clear_atomspace ;;; ret (Text "cleared"))
  else if String.eqb function_name "test_connection" then
    Some (text test_connection)
  else if String.eqb function_name "get_opencog_version" then
    Some (text get_opencog_version)
  else if String.eqb function_name "shutdown" then
    Some (shutdown ;;; ret (Text "shutdown"))
  else
    Some (raise (ValueError ("Unknown function: " ++ function_name))).

(** One call of [print]: with [json.dumps] of a dict or list, or with the
    string itself.  The entry is the value handed to [print], not the text
    that reaches the terminal: a string holding a line feed is one entry.
    Encoding the text and writing it are the interpreter's and are taken to
    succeed. *)
Inductive line : Type :=
| PrintJson (v : json)
| PrintText (s : string).

Definition printed (result : value) : list line :=
  match result with
  | Data v => [PrintJson v]
  | Text s => [PrintText s]
  | NoValue => []
  end.

(** How a run of the script ends: the exit status, what standard output
    received, and the process it leaves. *)
Record outcome : Type := {
  status : Z;
  stdout : list line;
  final : process
}.

Definition usage : string :=
  "Usage: opencog_bridge.py <function_name> <parameters_json>".

(** [if atomspace is None: initialize_opencog()] *)
Definition ensure (world : acquisition) : M unit :=
  fun p =>
    match atomspace p with
    | None => (initialize_opencog world ;;; ret tt) p
    | Some _ => ret tt p
    end.

Definition load (parameters_json : string) : result json :=
  if String.eqb parameters_json "null" then Ok (JObj []) else json_loads parameters_json.

(** The body of the [try] of [main], up to the value to print. *)
Definition attempt (world : acquisition) (function_name parameters_json : string)
    : option (M value) :=
  match load parameters_json with
  | Raise e => Some (ensure world ;;; raise e)
  | Ok parameters =>
      match dispatch function_name parameters with
      | Some run => Some (ensure world ;;; run)
      | None => None
      end
  end.

(** The [except] clause of [main]. *)
Definition report (function_name : string) (e : exn) : M unit :=
  emit ERROR ("Error executing function " ++ function_name ++ ": " ++ exn_str e) ;;;
  emit_trace e.

Definition main (world : acquisition) (argv : list string) (p : process)
    : option outcome :=
  match argv with
  | [_; function_name; parameters_json] =>
      match attempt world function_name parameters_json with
      | None => None
      | Some run =>
          match run p with
          | (Ok result, p') =>
              Some {| status := 0; stdout := printed result; final := p' |}
          | (Raise e, p') =>
              Some {| status := 1; stdout := [];
                      final := snd (report function_name e p') |}
          end
      end
  | _ => Some {| status := 1; stdout := [PrintText usage]; final := p |}
  end.

(** The names [main] recognises. *)
Definition operation_names : list string :=
  ["initialize_atomspace"; "create_concept_node"; "create_predicate_node";
   "add_transaction_entity"; "create_relationship"; "execute_pattern_matching";
   "run_pln_inference"; "detect_anomalies"; "get_cognitive_insights";
   "clear_atomspace"; "test_connection"; "get_opencog_version"; "shutdown"].

End Bridge.

(** ** A concrete binding, for running the bridge on examples *)

Module Sample.

(** Atoms print as s-expressions, and an atom's handle is its print. *)
Fixpoint atom_str (a : Atom) : string :=
  match a with
  | ConceptNode name => "(ConceptNode " ++ name ++ ")"
  | PredicateNode name => "(PredicateNode " ++ name ++ ")"
  | ListLink x y => "(ListLink " ++ atom_str x ++ " " ++ atom_str y ++ ")"
  | EvaluationLink x y => "(EvaluationLink " ++ atom_str x ++ " " ++ atom_str y ++ ")"
  end.

Definition handle_of (a : Atom) : string := atom_str a.

(** No atom has the attribute [get_predicate]. *)
Definition get_predicate (a : Atom) : option string := None.

(** [str] on the scalars; the examples use no other value. *)
Definition py_str (v : json) : string :=
  match v with
  | JStr s => s
  | JInt n => NilZero.string_of_int (Z.to_int n)
  | JBool true => "True"
  | JBool false => "False"
  | JNull => "None"
  | _ => ""
  end.

Definition quoted (s : string) : string :=
  String (ascii_of_nat 34) (s ++ String (ascii_of_nat 34) EmptyString).

(** A reader that knows two documents, [{}] and the object that maps
    [concept] to [acct]. *)
Definition json_loads (s : string) : result json :=
  if String.eqb s "{}" then Ok (JObj [])
  else if String.eqb s ("{" ++ quoted "concept" ++ ": " ++ quoted "acct" ++ "}")
  then Ok (JObj [("concept", JStr "acct")])
  else Raise (ValueError "Expecting value: line 1 column 1 (char 0)").

(** The request that names the concept [acct], and a payload that is not
    JSON. *)
Definition concept_request : string :=
  "{" ++ quoted "concept" ++ ": " ++ quoted "acct" ++ "}".

Definition broken_request : string := "{oops".

(** A store whose three atoms have importance 0, 1/2 and 3, and a
    process that holds it. *)
Definition ledger : AtomSpace :=
  [{| atom := ConceptNode "entity_acct"; tv := DefaultTruthValue; asti := 0%Q |};
   {| atom := ConceptNode "USD"; tv := DefaultTruthValue; asti := (1 # 2)%Q |};
   {| atom := PredicateNode "has_currency"; tv := DefaultTruthValue; asti := 3%Q |}].

Definition running : process :=
  {| atomspace := Some ledger; opencog_available := true; log := [] |}.

(** The process after a successful acquisition. *)
Definition ready : process :=
  {| atomspace := Some []; opencog_available := true; log := [] |}.

End Sample.

(** ** Vocabulary of the specification *)

(** The placeholder each operation answers with in mock mode. *)
Definition placeholder (c : call) : value :=
  match c with
  | InitializeAtomspace => Text "mock_atomspace_id"
  | CreateConceptNode concept => Text ("mock_concept_" ++ concept)
  | CreatePredicateNode predicate => Text ("mock_predicate_" ++ predicate)
  | AddTransactionEntity entity_id _ => Text ("mock_entity_" ++ entity_id)
  | CreateRelationship predicate from_entity to_entity _ =>
      Text ("mock_relationship_" ++ predicate ++ "_" ++ from_entity ++ "_" ++ to_entity)
  | ExecutePatternMatching pattern =>
      Data (JArr [JObj [("pattern", JStr pattern);
                        ("matches", JArr [JStr "mock_match_1"; JStr "mock_match_2"]);
                        ("confidence", JFloat (17 # 20)%Q)]])
  | RunPlnInference query max_steps =>
      Data (JArr [JObj [("query", JStr query);
                        ("inference_result", JStr "mock_inference_result");
                        ("confidence", JFloat (3 # 4)%Q);
                        ("steps", JInt (Z.min max_steps 5))]])
  | DetectAnomalies _ =>
      Data (JArr [JObj [("entity_id", JStr "mock_entity_1");
                        ("anomaly_score", JFloat (19 # 20)%Q);
                        ("anomaly_type", JStr "unusual_transaction_pattern");
                        ("description", JStr "Mock anomaly detection result")]])
  | GetCognitiveInsights entity_id =>
      Data (JObj [("entity_id", JStr entity_id);
                  ("behavioral_patterns", JArr [JStr "mock_pattern_1"; JStr "mock_pattern_2"]);
                  ("cognitive_score", JFloat (4 # 5)%Q);
                  ("attention_level", JFloat (3 # 5)%Q);
                  ("relationship_count", JInt 5)])
  | ClearAtomspace => NoValue
  | TestConnection => Text "OK"
  | GetOpencogVersion => Text "OpenCog not available (mock mode)"
  | Shutdown => NoValue
  end.

Definition is_record (v : json) : bool :=
  match v with JObj _ => true | _ => false end.

(** The kind a record gives a key, if it has the key. *)
Definition kind_at (key : string) (r : json) : option kind :=
  option_map kind_of (field key r).

Definition option_kind_eqb (a b : option kind) : bool :=
  match a, b with
  | Some x, Some y => kind_eqb x y
  | None, None => true
  | _, _ => false
  end.

(** A record gives each listed key a value of the listed kind. *)
Definition has_kinds (need : list (string * kind)) (r : json) : bool :=
  is_record r
  && forallb (fun kk => option_kind_eqb (kind_at (fst kk) r) (Some (snd kk))) need.

Definition is_string (v : json) : bool :=
  match v with JStr _ => true | _ => false end.

(** [matches] is a list of at most ten identifiers. *)
Definition up_to_ten_ids (r : json) : bool :=
  match field "matches" r with
  | Some (JArr items) => (List.length items <=? 10)%nat && forallb is_string items
  | _ => false
  end.

(** [steps] is an integer no greater than [max_steps]. *)
Definition steps_within (max_steps : Z) (r : json) : bool :=
  match field "steps" r with
  | Some (JInt steps) => steps <=? max_steps
  | _ => false
  end.

(** The output each operation is documented to give (the table of
    operations of the specification), under the key names the code uses
    for the table's [result], [id], [score] and [type]: a string for the
    operations that answer a token or a reference; for the pattern query
    a sequence of records with [pattern], [matches] (up to ten
    identifiers), [confidence] and [count]; for the inference a sequence
    of records with [query], [inference_result], [confidence] and [steps]
    no greater than [max_steps]; for the anomaly scan a sequence of
    records with an identifier ([atom_id] or [entity_id]),
    [anomaly_score], [anomaly_type] and [description]; for the insights a
    record with its five fields; nothing for [clear_atomspace] and
    [shutdown]. *)
Definition documented (c : call) (v : value) : bool :=
  match c, v with
  | (InitializeAtomspace | CreateConceptNode _ | CreatePredicateNode _
     | AddTransactionEntity _ _ | CreateRelationship _ _ _ _
     | TestConnection | GetOpencogVersion), Text _ => true
  | ExecutePatternMatching _, Data (JArr items) =>
      forallb (fun r =>
        has_kinds [("pattern", KString); ("matches", KArray);
                   ("confidence", KNumber); ("count", KNumber)] r
        && up_to_ten_ids r) items
  | RunPlnInference _ max_steps, Data (JArr items) =>
      forallb (fun r =>
        has_kinds [("query", KString); ("inference_result", KString);
                   ("confidence", KNumber); ("steps", KNumber)] r
        && steps_within max_steps r) items
  | DetectAnomalies _, Data (JArr items) =>
      forallb (fun r =>
        (has_kinds [("atom_id", KString)] r || has_kinds [("entity_id", KString)] r)
        && has_kinds [("anomaly_score", KNumber); ("anomaly_type", KString);
                      ("description", KString)] r) items
  | GetCognitiveInsights _, Data r =>
      has_kinds [("entity_id", KString); ("behavioral_patterns", KArray);
                 ("cognitive_score", KNumber); ("attention_level", KNumber);
                 ("relationship_count", KNumber)] r
  | (ClearAtomspace | Shutdown), NoValue => true
  | _, _ => false
  end.

Definition is_pattern_query (c : call) : bool :=
  match c with ExecutePatternMatching _ => true | _ => false end.

(** Python's numbers among the JSON values: [int], [float] and [bool]. *)
Definition is_number (v : json) : bool :=
  match v with JInt _ | JFloat _ | JBool _ => true | _ => false end.

(** Every key of [r1] is a key of [r2] with a value of the same kind. *)
Definition within (r1 r2 : json) : bool :=
  is_record r1 && is_record r2 &&
  forallb (fun k => option_kind_eqb (kind_at k r1) (kind_at k r2)) (keys_of r1).

(** Same keys, and the same kind of value under each key. *)
Definition same_record (r1 r2 : json) : bool := within r1 r2 && within r2 r1.

(** Two results have the same shape: both strings, both nothing, two
    records with the same keys and kinds, or two sequences whose records
    all have the same keys and kinds. *)
Definition same_shape (v w : value) : bool :=
  match v, w with
  | Text _, Text _ => true
  | NoValue, NoValue => true
  | Data (JArr l1), Data (JArr l2) =>
      forallb (fun r1 => forallb (same_record r1) l2) l1
  | Data r1, Data r2 => same_record r1 r2
  | _, _ => false
  end.

(** The records of the first sequence fit within those of the second. *)
Definition shape_within (v w : value) : bool :=
  match v, w with
  | Data (JArr l1), Data (JArr l2) =>
      forallb (fun r1 => forallb (within r1) l2) l1
  | _, _ => false
  end.

(** The records of two sequences give the listed keys the same kinds. *)
Definition agree_on (keys : list string) (v w : value) : bool :=
  match v, w with
  | Data (JArr l1), Data (JArr l2) =>
      forallb (fun r1 => forallb (fun r2 =>
        forallb (fun k => match kind_at k r1, kind_at k r2 with
                          | Some x, Some y => kind_eqb x y
                          | _, _ => false
                          end) keys) l2) l1
  | _, _ => false
  end.

(** The number of stored elements whose string form contains the pattern,
    case-insensitively. *)
Fixpoint true_count (atom_str : Atom -> string) (pattern : string) (sp : AtomSpace) : nat :=
  match sp with
  | [] => 0
  | s :: rest =>
      (if contains (lower pattern) (lower (atom_str (atom s))) then 1 else 0)
      + true_count atom_str pattern rest
  end%nat.

(** The labelled associations a store holds: its evaluation links. *)
Definition is_evaluation (a : Atom) : bool :=
  match a with EvaluationLink _ _ => true | _ => false end.

Definition evaluations (sp : AtomSpace) : list Atom :=
  filter is_evaluation (map atom sp).

(** A payload with every field any operation reads. *)
Definition full_payload : json :=
  JObj [("concept", JStr "c"); ("predicate", JStr "p"); ("entity_id", JStr "e");
        ("properties", JObj []); ("from_entity", JStr "a"); ("to_entity", JStr "b");
        ("strength", JFloat (1 # 2)%Q); ("pattern", JStr "x"); ("query", JStr "q");
        ("max_steps", JInt 1); ("threshold", JFloat (1 # 2)%Q)].

(** [b] is [a] or one of the atoms [a] is built from. *)
Fixpoint occurs (b a : Atom) : bool :=
  Atom_eqb a b ||
  match a with
  | ConceptNode _ | PredicateNode _ => false
  | ListLink x y | EvaluationLink x y => occurs b x || occurs b y
  end.

(** No evaluation link in [a]. *)
Fixpoint plain (a : Atom) : bool :=
  match a with
  | ConceptNode _ | PredicateNode _ => true
  | ListLink x y => plain x && plain y
  | EvaluationLink _ _ => false
  end.

(** The store after the loop of [add_transaction_entity] has added the
    link of each property in turn. *)
Definition add_all (py_str : json -> string) (entity_node : Atom)
    (properties : list (string * json)) (sp : AtomSpace) : AtomSpace :=
  fold_left (fun acc prop => add_atom (property_link py_str entity_node prop) None acc)
            properties sp.

(** The evaluation links among [links] that the store does not hold. *)
Definition missing (sp : AtomSpace) (links : list Atom) : list Atom :=
  filter (fun l => negb (holds l sp)) links.

(** Every record of a sequence passes the test. *)
Definition records_all (f : json -> bool) (v : value) : bool :=
  match v with
  | Data (JArr l) => forallb f l
  | _ => false
  end.

Definition has_key (key : string) (r : json) : bool :=
  match kind_at key r with Some _ => true | None => false end.

(** How the mock answer of an operation compares with its present-mode
    answer.  For the pattern query and the inference the mock records fit
    within the real ones, which carry one key more ([count],
    [reasoning_path]); for the anomaly scan the records agree on the score,
    the type and the description and name the identifier differently
    ([entity_id], [atom_id]); for every other operation the two answers
    have the same shape. *)
Definition mode_relation (c : call) (mock real : value) : bool :=
  match c with
  | ExecutePatternMatching _ =>
      shape_within mock real
      && records_all (fun r => negb (has_key "count" r)) mock
      && records_all (has_key "count") real
  | RunPlnInference _ _ =>
      shape_within mock real
      && records_all (fun r => negb (has_key "reasoning_path" r)) mock
      && records_all (has_key "reasoning_path") real
  | DetectAnomalies _ =>
      agree_on ["anomaly_score"; "anomaly_type"; "description"] mock real
      && records_all (fun r => has_key "entity_id" r && negb (has_key "atom_id" r)) mock
      && records_all (fun r => has_key "atom_id" r && negb (has_key "entity_id" r)) real
  | _ => same_shape mock real
  end.

(** The keys of each record of a sequence. *)
Definition keys_of_rows (v : value) : list (list string) :=
  match v with
  | Data (JArr l) => map keys_of l
  | _ => []
  end.

(** Acquisition failed. *)
Definition failed (world : acquisition) : bool :=
  match world with Acquired => false | _ => true end.

(** The mode a process is in. *)
Definition absent (p : process) : Prop := opencog_available p = false.
Definition present (p : process) : Prop := opencog_available p = true.

(** ** Vocabulary for the rest of the bridge *)

(** The operations whose real branch calls a method of the store (or tests
    membership in it). *)
Definition touches_store (c : call) : bool :=
  match c with
  | CreateConceptNode _ | CreatePredicateNode _ | AddTransactionEntity _ _
  | CreateRelationship _ _ _ _ | ExecutePatternMatching _ | DetectAnomalies _
  | GetCognitiveInsights _ | ClearAtomspace => true
  | InitializeAtomspace | RunPlnInference _ _ | TestConnection
  | GetOpencogVersion | Shutdown => false
  end.

Definition is_shutdown (c : call) : bool :=
  match c with Shutdown => true | _ => false end.

(** What [main] runs for a call: the function itself, with the token
    [main] substitutes for the two functions that return [None]. *)
Definition served (handle_of atom_str : Atom -> string)
    (get_predicate : Atom -> option string) (py_str : json -> string)
    (c : call) : M value :=
  match c with
  | ClearAtomspace => clear_atomspace ;;; ret (Text "cleared")
  | Shutdown => shutdown ;;; ret (Text "shutdown")
  | _ => invoke handle_of atom_str get_predicate py_str c
  end.

(** The name [main] knows a call by. *)
Definition name_of (c : call) : string :=
  match c with
  | InitializeAtomspace => "initialize_atomspace"
  | CreateConceptNode _ => "create_concept_node"
  | CreatePredicateNode _ => "create_predicate_node"
  | AddTransactionEntity _ _ => "add_transaction_entity"
  | CreateRelationship _ _ _ _ => "create_relationship"
  | ExecutePatternMatching _ => "execute_pattern_matching"
  | RunPlnInference _ _ => "run_pln_inference"
  | DetectAnomalies _ => "detect_anomalies"
  | GetCognitiveInsights _ => "get_cognitive_insights"
  | ClearAtomspace => "clear_atomspace"
  | TestConnection => "test_connection"
  | GetOpencogVersion => "get_opencog_version"
  | Shutdown => "shutdown"
  end.

(** The fields of a payload carry the arguments of a call under the
    parameter names [main] reads. *)
Definition carries (fields : list (string * json)) (c : call) : Prop :=
  match c with
  | CreateConceptNode concept => lookup "concept" fields = Some (JStr concept)
  | CreatePredicateNode predicate => lookup "predicate" fields = Some (JStr predicate)
  | AddTransactionEntity entity_id properties =>
      lookup "entity_id" fields = Some (JStr entity_id)
      /\ lookup "properties" fields = Some (JObj properties)
  | CreateRelationship predicate from_entity to_entity strength =>
      lookup "predicate" fields = Some (JStr predicate)
      /\ lookup "from_entity" fields = Some (JStr from_entity)
      /\ lookup "to_entity" fields = Some (JStr to_entity)
      /\ lookup "strength" fields = Some (JFloat strength)
  | ExecutePatternMatching pattern => lookup "pattern" fields = Some (JStr pattern)
  | RunPlnInference query max_steps =>
      lookup "query" fields = Some (JStr query)
      /\ lookup "max_steps" fields = Some (JInt max_steps)
  | DetectAnomalies threshold => lookup "threshold" fields = Some (JFloat threshold)
  | GetCognitiveInsights entity_id => lookup "entity_id" fields = Some (JStr entity_id)
  | InitializeAtomspace | ClearAtomspace | TestConnection
  | GetOpencogVersion | Shutdown => True
  end.

(** The fields [main] reads for a function, in the order it reads them. *)
Definition required (function_name : string) : list string :=
  if String.eqb function_name "create_concept_node" then ["concept"]
  else if String.eqb function_name "create_predicate_node" then ["predicate"]
  else if String.eqb function_name "add_transaction_entity" then ["entity_id"; "properties"]
  else if String.eqb function_name "create_relationship"
  then ["predicate"; "from_entity"; "to_entity"; "strength"]
  else if String.eqb function_name "execute_pattern_matching" then ["pattern"]
  else if String.eqb function_name "run_pln_inference" then ["query"; "max_steps"]
  else if String.eqb function_name "detect_anomalies" then ["threshold"]
  else if String.eqb function_name "get_cognitive_insights" then ["entity_id"]
  else [].

(** The first of the keys that the fields lack. *)
Definition first_missing (fields : list (string * json)) (keys : list string)
    : option string :=
  find (fun k => match lookup k fields with Some _ => false | None => true end) keys.

(** The functions that take no argument. *)
Definition parameterless : list string :=
  ["initialize_atomspace"; "clear_atomspace"; "test_connection";
   "get_opencog_version"; "shutdown"].

(** The store a call leaves in present mode, given the store it found
    ([shutdown], which drops the handle, apart). *)
Definition store_after (py_str : json -> string) (c : call) (sp : AtomSpace) : AtomSpace :=
  match c with
  | CreateConceptNode concept => add_atom (ConceptNode concept) None sp
  | CreatePredicateNode predicate => add_atom (PredicateNode predicate) None sp
  | AddTransactionEntity entity_id properties =>
      add_all py_str (ConceptNode ("entity_" ++ entity_id)) properties
        (add_atom (ConceptNode ("entity_" ++ entity_id)) None sp)
  | CreateRelationship predicate from_entity to_entity strength =>
      add_atom (EvaluationLink (PredicateNode predicate)
                  (ListLink (ConceptNode from_entity) (ConceptNode to_entity)))
               (Some {| mean := strength; confidence := (9 # 10)%Q |}) sp
  | ClearAtomspace => []
  | _ => sp
  end.

(** The store handle a call leaves, in either mode. *)
Definition handle_after (py_str : json -> string) (c : call) (p : process)
    : option AtomSpace :=
  if is_shutdown c then None
  else if opencog_available p then option_map (store_after py_str c) (atomspace p)
  else atomspace p.

Definition is_clear (c : call) : bool :=
  match c with ClearAtomspace => true | _ => false end.

(** What a request prints in mock mode: the placeholder of the call, or the
    token [main] prints for the two functions that return [None]. *)
Definition mock_output (c : call) : list line :=
  match c with
  | ClearAtomspace => [PrintText "cleared"]
  | Shutdown => [PrintText "shutdown"]
  | _ => printed (placeholder c)
  end.

(** [b] points at [a]: [a] is in the outgoing set of [b]. *)
Definition points_at (a b : Atom) : bool := existsb (Atom_eqb a) (outgoing b).

(** * Properties *)

(** ** Facts about the store, lists and rationals *)

Lemma or_false_true (A : Prop) : A \/ false = true <-> A.
Proof. split; [intros [H | H]; [assumption | discriminate] | now left]. Qed.

Lemma Atom_eqb_refl (a : Atom) : Atom_eqb a a = true.
Proof. unfold Atom_eqb. destruct (Atom_eq_dec a a); congruence. Qed.

Lemma Atom_eqb_eq (a b : Atom) : Atom_eqb a b = true <-> a = b.
Proof. unfold Atom_eqb. destruct (Atom_eq_dec a b); split; congruence. Qed.

Lemma holds_In (a : Atom) (sp : AtomSpace) :
  holds a sp = true <-> In a (map atom sp).
Proof.
  unfold holds. rewrite existsb_exists, in_map_iff. split.
  - intros (s & Hs & E). apply Atom_eqb_eq in E. eauto.
  - intros (s & E & Hs). exists s. split; [assumption |]. now apply Atom_eqb_eq.
Qed.

Lemma atoms_set_tv (a : Atom) (v : TruthValue) (sp : AtomSpace) :
  map atom (set_tv a v sp) = map atom sp.
Proof.
  unfold set_tv. rewrite map_map. apply map_ext.
  intros s. now destruct (Atom_eqb (atom s) a).
Qed.

Lemma atoms_insert (a : Atom) (t : option TruthValue) (sp : AtomSpace) :
  map atom (insert a t sp)
  = if holds a sp then map atom sp else (map atom sp ++ [a])%list.
Proof.
  unfold insert. destruct (holds a sp).
  - destruct t; [apply atoms_set_tv | reflexivity].
  - now rewrite map_app.
Qed.

Lemma In_insert (b a : Atom) (t : option TruthValue) (sp : AtomSpace) :
  In b (map atom (insert a t sp)) <-> In b (map atom sp) \/ b = a.
Proof.
  rewrite atoms_insert. destruct (holds a sp) eqn:E.
  - apply holds_In in E. split; [tauto |]. intros [H | ->]; assumption.
  - rewrite in_app_iff. simpl. intuition congruence.
Qed.

Lemma occurs_self (a : Atom) : occurs a a = true.
Proof. destruct a; simpl; now rewrite Atom_eqb_refl. Qed.

Lemma In_add_atom (b a : Atom) (t : option TruthValue) (sp : AtomSpace) :
  In b (map atom (add_atom a t sp)) <-> In b (map atom sp) \/ occurs b a = true.
Proof.
  revert t sp.
  induction a as [n | n | x IHx y IHy | x IHx y IHy]; intros t sp; simpl.
  1, 2: rewrite In_insert, orb_false_r, Atom_eqb_eq; intuition congruence.
  all: rewrite In_insert, IHy, IHx, !orb_true_iff, Atom_eqb_eq;
    intuition congruence.
Qed.

Lemma evaluations_insert (a : Atom) (t : option TruthValue) (sp : AtomSpace) :
  evaluations (insert a t sp)
  = if holds a sp then evaluations sp
    else (evaluations sp ++ if is_evaluation a then [a] else [])%list.
Proof.
  unfold evaluations. rewrite atoms_insert. destruct (holds a sp); [reflexivity |].
  rewrite filter_app. simpl. now destruct (is_evaluation a).
Qed.

Lemma evaluations_add_plain (a : Atom) (t : option TruthValue) (sp : AtomSpace) :
  plain a = true -> evaluations (add_atom a t sp) = evaluations sp.
Proof.
  revert t sp.
  induction a as [n | n | x IHx y IHy | x IHx y IHy]; intros t sp H; simpl in *.
  - rewrite evaluations_insert. destruct (holds _ _); simpl; auto using app_nil_r.
  - rewrite evaluations_insert. destruct (holds _ _); simpl; auto using app_nil_r.
  - apply andb_true_iff in H as [Hx Hy].
    rewrite evaluations_insert, IHy, IHx by assumption.
    destruct (holds _ _); simpl; auto using app_nil_r.
  - discriminate.
Qed.

Lemma plain_occurs (b a : Atom) :
  plain a = true -> is_evaluation b = true -> occurs b a = false.
Proof.
  intros Ha Hb.
  induction a as [n | n | x IHx y IHy | x IHx y IHy]; simpl in *.
  - rewrite orb_false_r. apply not_true_is_false. intros E.
    apply Atom_eqb_eq in E. subst. discriminate.
  - rewrite orb_false_r. apply not_true_is_false. intros E.
    apply Atom_eqb_eq in E. subst. discriminate.
  - apply andb_true_iff in Ha as [Hx Hy].
    rewrite IHx, IHy by assumption. rewrite !orb_false_r.
    apply not_true_is_false. intros E. apply Atom_eqb_eq in E. subst. discriminate.
  - discriminate.
Qed.

(** Adding an evaluation link over plain atoms adds that one link to the
    evaluation links of the store, unless the store holds it already. *)
Lemma evaluations_add_link (x y : Atom) (t : option TruthValue) (sp : AtomSpace) :
  plain x = true -> plain y = true ->
  evaluations (add_atom (EvaluationLink x y) t sp)
  = if holds (EvaluationLink x y) sp then evaluations sp
    else (evaluations sp ++ [EvaluationLink x y])%list.
Proof.
  intros Hx Hy. simpl.
  rewrite evaluations_insert, !evaluations_add_plain by assumption.
  assert (E : holds (EvaluationLink x y) (add_atom y None (add_atom x None sp))
              = holds (EvaluationLink x y) sp).
  { apply eq_true_iff_eq. rewrite !holds_In, !In_add_atom.
    rewrite !plain_occurs by (assumption || reflexivity).
    intuition discriminate. }
  now rewrite E.
Qed.

Lemma missing_nothing_held (sp : AtomSpace) (links : list Atom) :
  (forall l, In l links -> holds l sp = false) -> missing sp links = links.
Proof.
  intros H. unfold missing. induction links as [| l links IH]; [reflexivity |].
  simpl. rewrite (H l) by now left. simpl. f_equal.
  apply IH. intros l' Hl'. apply H. now right.
Qed.

Lemma Qgtb_antitone (x t1 t2 : Q) :
  (t1 <= t2)%Q -> Qgtb x t2 = true -> Qgtb x t1 = true.
Proof.
  unfold Qgtb. intros Hle H.
  apply negb_true_iff in H. apply negb_true_iff.
  apply not_true_is_false. intros Hx. apply Qle_bool_iff in Hx.
  assert (Hc : Qle_bool x t2 = true).
  { apply Qle_bool_iff. eapply Qle_trans; eassumption. }
  congruence.
Qed.

Lemma filter_weaker {A : Type} (f g : A -> bool) (l : list A) :
  (forall x, f x = true -> g x = true) ->
  incl (filter f l) (filter g l)
  /\ (List.length (filter f l) <= List.length (filter g l))%nat.
Proof.
  intros H. induction l as [| x l [IHi IHl]]; simpl.
  - split; [apply incl_refl | lia].
  - destruct (f x) eqn:Ef.
    + rewrite (H x Ef). split.
      * intros y [<- | Hy]; [now left | right; now apply IHi].
      * simpl; lia.
    + destruct (g x); split.
      * intros y Hy. right. now apply IHi.
      * simpl; lia.
      * assumption.
      * assumption.
Qed.

(** ** More facts about the store *)

Lemma In_add_atom_keeps (b a : Atom) (t : option TruthValue) (sp : AtomSpace) :
  In b (map atom sp) -> In b (map atom (add_atom a t sp)).
Proof. intros H. apply In_add_atom. now left. Qed.

Lemma Qgtb_lt (a b : Q) : Qgtb a b = true <-> (b < a)%Q.
Proof.
  unfold Qgtb. rewrite negb_true_iff. split.
  - intros H. apply Qnot_le_lt. intros Hle. apply Qle_bool_iff in Hle. congruence.
  - intros H. apply not_true_is_false. intros Hle. apply Qle_bool_iff in Hle.
    now apply (Qlt_not_le _ _ H).
Qed.


Lemma stored_held (a : Atom) (sp : AtomSpace) :
  holds a sp = true -> exists s, stored a sp = Some s /\ atom s = a.
Proof.
  unfold holds, stored. induction sp as [| s sp IH]; [discriminate |].
  simpl. destruct (Atom_eqb (atom s) a) eqn:E.
  - intros _. exists s. split; [reflexivity | now apply Atom_eqb_eq].
  - exact IH.
Qed.


Lemma lower_ascii_idempotent (c : ascii) : lower_ascii (lower_ascii c) = lower_ascii c.
Proof.
  destruct c as [[] [] [] [] [] [] [] []]; reflexivity.
Qed.

Lemma lower_idempotent (s : string) : lower (lower s) = lower s.
Proof.
  induction s as [| c s IH]; [reflexivity |].
  simpl. now rewrite lower_ascii_idempotent, IH.
Qed.

Lemma contains_empty (hay : string) : contains "" hay = true.
Proof. destruct hay; reflexivity. Qed.

Lemma occurs_in_link (b x y : Atom) :
  occurs b x = true \/ occurs b y = true ->
  occurs b (ListLink x y) = true /\ occurs b (EvaluationLink x y) = true.
Proof.
  simpl. intros [H | H]; rewrite H; rewrite ?orb_true_r; split; reflexivity.
Qed.

Lemma holds_set_tv (b a : Atom) (v : TruthValue) (sp : AtomSpace) :
  holds b (set_tv a v sp) = holds b sp.
Proof. apply eq_true_iff_eq. now rewrite !holds_In, atoms_set_tv. Qed.

Lemma holds_add_atom_keeps (b a : Atom) (t : option TruthValue) (sp : AtomSpace) :
  holds b sp = true -> holds b (add_atom a t sp) = true.
Proof. rewrite !holds_In. apply In_add_atom_keeps. Qed.

Lemma length_insert (a : Atom) (t : option TruthValue) (sp : AtomSpace) :
  (List.length sp <= List.length (insert a t sp))%nat.
Proof.
  unfold insert. destruct (holds a sp).
  - destruct t; [unfold set_tv; rewrite length_map |]; lia.
  - rewrite length_app. simpl. lia.
Qed.

Lemma length_add_atom (a : Atom) (t : option TruthValue) (sp : AtomSpace) :
  (List.length sp <= List.length (add_atom a t sp))%nat.
Proof.
  revert t sp. induction a as [n | n | x IHx y IHy | x IHx y IHy]; intros t sp; simpl.
  1, 2: apply length_insert.
  all: eapply Nat.le_trans; [apply (IHx None) |];
    eapply Nat.le_trans; [apply (IHy None) |]; apply length_insert.
Qed.

(** ** The substring test *)

Lemma prefix_split (s1 s2 : string) :
  String.prefix s1 s2 = true <-> exists post, s2 = s1 ++ post.
Proof.
  revert s2. induction s1 as [| a s1 IH]; intros s2.
  - split; [intros _; now exists s2 | intros _; destruct s2; reflexivity].
  - destruct s2 as [| b s2]; simpl.
    + split; [discriminate | intros (post & H); discriminate H].
    + destruct (ascii_dec a b) as [-> | Hab].
      * rewrite IH. split.
        -- intros (post & ->). now exists post.
        -- intros (post & H). injection H as ->. now exists post.
      * split; [discriminate |].
        intros (post & H). injection H as H _. now elim Hab.
Qed.

(** [contains needle hay] holds exactly when [hay] can be cut around a copy
    of [needle]. *)
Lemma contains_split (needle hay : string) :
  contains needle hay = true <-> exists pre post, hay = pre ++ needle ++ post.
Proof.
  induction hay as [| c hay IH].
  - cbn [contains]. rewrite orb_false_r, prefix_split. split.
    + intros (post & H). now exists "", post.
    + intros (pre & post & H). destruct pre as [| a pre]; [| discriminate H].
      now exists post.
  - cbn [contains]. rewrite orb_true_iff, prefix_split, IH. split.
    + intros [(post & H) | (pre & post & H)].
      * now exists "", post.
      * exists (String c pre), post. simpl. now rewrite H.
    + intros (pre & post & H). destruct pre as [| a pre].
      * left. now exists post.
      * right. simpl in H. injection H as _ H. now exists pre, post.
Qed.

(** ** Incoming sets *)

Lemma get_incoming_atoms (a : Atom) (sp : AtomSpace) :
  get_incoming a sp = filter (points_at a) (map atom sp).
Proof.
  unfold get_incoming, points_at. induction sp as [| s sp IH]; [reflexivity |].
  simpl. destruct (existsb (Atom_eqb a) (outgoing (atom s))); simpl; now rewrite IH.
Qed.

Lemma In_get_incoming (a b : Atom) (sp : AtomSpace) :
  In b (get_incoming a sp) <-> holds b sp = true /\ points_at a b = true.
Proof. rewrite get_incoming_atoms, filter_In, holds_In. tauto. Qed.

Lemma incoming_insert (a b : Atom) (t : option TruthValue) (sp : AtomSpace) :
  (List.length (get_incoming a sp) <= List.length (get_incoming a (insert b t sp))
   <= List.length (get_incoming a sp) + (if points_at a b then 1 else 0))%nat.
Proof.
  rewrite !get_incoming_atoms, atoms_insert. destruct (holds b sp); [lia |].
  rewrite filter_app, length_app. simpl. destruct (points_at a b); simpl; lia.
Qed.

Section Properties.

Variable handle_of : Atom -> string.
Variable atom_str : Atom -> string.
Variable get_predicate : Atom -> option string.
Variable py_str : json -> string.
Variable json_loads : string -> result json.

Local Abbreviation run := (invoke handle_of atom_str get_predicate py_str).
Local Abbreviation script := (main handle_of atom_str get_predicate py_str json_loads).

(** ** Mock mode *)

(** In mock mode an operation answers its placeholder and stays in mock
    mode. *)
Lemma invoke_absent (c : call) (p : process) :
  absent p ->
  fst (run c p) = Ok (placeholder c) /\ absent (snd (run c p)).
Proof.
  unfold absent. destruct p as [sp av lg]; simpl; intros ->.
  destruct c; split; try reflexivity.
  all: destruct sp; reflexivity.
Qed.

Lemma inference_steps_documented (max_steps cap : Z) :
  (Z.min max_steps cap <=? max_steps) = true.
Proof. apply Z.leb_le. lia. Qed.

Lemma placeholder_documented (c : call) :
  documented c (placeholder c) = negb (is_pattern_query c).
Proof.
  destruct c; try reflexivity.
  unfold documented, placeholder, has_kinds, steps_within. simpl.
  now rewrite inference_steps_documented.
Qed.

(** C2, as the code has it: in mock mode every operation, on arguments of
    its annotated types, returns normally; the value returned is the
    placeholder of the operation, the same whatever the process holds; and
    the placeholder has the documented shape for every operation but the
    pattern query, whose mock record has [pattern], its [matches] and
    [confidence] but not the documented [count].  On other inputs the
    inference raises in mock mode exactly when [max_steps] is not a
    number. *)
Theorem mock_operations_total (c : call) (p : process) :
  absent p ->
  fst (run c p) = Ok (placeholder c)
  /\ (forall q, absent q -> fst (run c q) = fst (run c p))
  /\ documented c (placeholder c) = negb (is_pattern_query c)
  /\ (forall pattern, c = ExecutePatternMatching pattern ->
      exists r,
        placeholder c = Data (JArr [r])
        /\ has_kinds [("pattern", KString); ("matches", KArray);
                      ("confidence", KNumber)] r = true
        /\ up_to_ten_ids r = true
        /\ has_key "count" r = false)
  /\ (forall query max_steps : json,
      (exists e, fst (run_pln_inference_untyped py_str query max_steps p) = Raise e)
      <-> is_number max_steps = false).
Proof.
  intros Hp. destruct (invoke_absent c Hp) as [E _].
  split; [exact E |]. split; [| split; [| split]].
  - intros q Hq. rewrite E. apply (invoke_absent c Hq).
  - apply placeholder_documented.
  - intros pattern ->. eexists. repeat split.
  - intros query max_steps. destruct p as [sp av lg]. unfold absent in Hp.
    simpl in Hp. subst av.
    unfold run_pln_inference_untyped, bind, available. cbn [fst opencog_available negb].
    destruct max_steps; cbn [py_min is_number]; split;
      try discriminate; try (intros [e He]; discriminate He);
      intros _; eexists; reflexivity.
Qed.

(** ** Acquisition *)

Lemma demote_absent (e : exn) (p : process) :
  exists p', demote e p = (Ok false, p')
             /\ absent p' /\ atomspace p' = atomspace p.
Proof.
  destruct e; eexists; (split; [reflexivity | split; reflexivity]).
Qed.

(** C9: when the import, the constructor or the initialiser of the
    reasoning library raises, [initialize_opencog] still returns normally
    (with [False]), the process is left in mock mode, every operation
    called afterwards answers its placeholder, and the script run from
    the start of the process goes on to print a result and exit with
    status 0. *)
Theorem acquisition_failure_demotes (world : acquisition) (p : process) :
  failed world = true ->
  (exists p', initialize_opencog world p = (Ok false, p')
              /\ absent p'
              /\ forall c, fst (run c p') = Ok (placeholder c))
  /\ (forall prog, exists o,
        script world [prog; "get_opencog_version"; "null"] startup = Some o
        /\ status o = 0
        /\ stdout o = [PrintText "OpenCog not available (mock mode)"]).
Proof.
  intros Hw. split.
  - assert (H : exists p', initialize_opencog world p = (Ok false, p') /\ absent p').
    { destruct world as [e | e | e |]; try discriminate Hw; simpl.
      - destruct (demote_absent e p) as (p' & E & A & _). eauto.
      - destruct (demote_absent e p) as (p' & E & A & _). eauto.
      - unfold bind; simpl.
        match goal with |- context [demote e ?q] =>
          destruct (demote_absent e q) as (p' & E & A & _) end.
        rewrite E. eauto. }
    destruct H as (p' & E & A). exists p'. repeat split; trivial.
    intros c. apply (invoke_absent c A).
  - intros prog.
    destruct world as [e | e | e |]; try discriminate Hw;
      destruct e; eexists; (split; [reflexivity | split; reflexivity]).
Qed.

(** ** Inference *)

(** C5: in either mode, for every query and every integer [max_steps],
    the inference returns one record whose [steps] is at most
    [max_steps]; with [max_steps = 1] it is at most 1. *)
Theorem inference_steps_bounded (query : string) (max_steps : Z) (p : process) :
  (exists r s, fst (run_pln_inference query max_steps p) = Ok [r]
               /\ field "steps" r = Some (JInt s)
               /\ s <= max_steps)
  /\ (exists r s, fst (run_pln_inference query 1 p) = Ok [r]
                  /\ field "steps" r = Some (JInt s)
                  /\ s <= 1).
Proof.
  destruct p as [sp [|] lg]; split; do 2 eexists;
    (split; [reflexivity | split; [reflexivity | lia]]).
Qed.

(** C10: in present mode the inference never reads the store (it
    succeeds even when the store handle is gone, and leaves the process
    as it was): it returns exactly one record, with [inference_result]
    the query prefixed by "inferred_from_", [confidence] 0.7 and [steps]
    the smaller of [max_steps] and 3. *)
Theorem present_inference_is_canned (query : string) (max_steps : Z) (p : process) :
  present p ->
  exists r, run_pln_inference query max_steps p = (Ok [r], p)
            /\ field "inference_result" r = Some (JStr ("inferred_from_" ++ query))
            /\ field "confidence" r = Some (JFloat (7 # 10)%Q)
            /\ field "steps" r = Some (JInt (Z.min max_steps 3))
            /\ forall q, present q -> fst (run_pln_inference query max_steps q) = Ok [r].
Proof.
  unfold present. destruct p as [sp av lg]; simpl; intros ->.
  eexists. split; [reflexivity |].
  repeat split.
  intros [sp' av' lg']; simpl; intros ->. reflexivity.
Qed.

(** On a string and an integer the function followed on every JSON value
    is the function on its annotated types. *)
Lemma untyped_agrees (query : string) (max_steps : Z) (p : process) :
  run_pln_inference_untyped py_str (JStr query) (JInt max_steps) p
  = run_pln_inference query max_steps p.
Proof. destruct p as [sp [|] lg]; reflexivity. Qed.

(** ** The dispatcher *)

Lemma dispatch_unknown (name : string) (parameters : json) :
  ~ In name operation_names ->
  dispatch handle_of atom_str get_predicate py_str name parameters
  = Some (raise (ValueError ("Unknown function: " ++ name))).
Proof.
  intros H. unfold dispatch.
  repeat match goal with
  | |- context [String.eqb name ?b] =>
      destruct (String.eqb_spec name b) as [-> | _];
      [exfalso; apply H; simpl; tauto |]
  end.
  reflexivity.
Qed.

Lemma ensure_returns (world : acquisition) (p : process) :
  exists p', ensure world p = (Ok tt, p').
Proof.
  unfold ensure. destruct (atomspace p); [eexists; reflexivity |].
  destruct world as [e | e | e |]; try destruct e; eexists; reflexivity.
Qed.

(** C7: a run of the script whose function name is none of the thirteen
    it recognises exits with status 1 and writes nothing on standard
    output, whatever the payload and whatever the acquisition does. *)
Theorem unknown_operation_fails (world : acquisition)
    (prog name payload : string) (p : process) :
  ~ In name operation_names ->
  exists o, script world [prog; name; payload] p = Some o
            /\ status o = 1
            /\ stdout o = [].
Proof.
  intros H. unfold main, attempt.
  destruct (load json_loads payload) as [parameters | e].
  - rewrite (dispatch_unknown parameters H).
    unfold bind. destruct (ensure_returns world p) as (p' & ->).
    simpl. eexists. repeat split.
  - unfold bind. destruct (ensure_returns world p) as (p' & ->).
    simpl. eexists. repeat split.
Qed.

(** The thirteen names are all recognised: each reaches its function,
    which in mock mode returns. *)
Lemma recognised_operations_run (name : string) :
  In name operation_names ->
  exists m v,
    dispatch handle_of atom_str get_predicate py_str name full_payload = Some m
    /\ fst (m startup) = Ok v.
Proof.
  simpl. intros H.
  repeat (destruct H as [<- | H]; [do 2 eexists; split; reflexivity |]).
  destruct H.
Qed.

(** With any other number of arguments the script prints its usage line
    and exits with status 1. *)
Lemma usage_on_bad_arity (world : acquisition) (argv : list string) (p : process) :
  List.length argv <> 3%nat ->
  script world argv p
  = Some {| status := 1; stdout := [PrintText usage]; final := p |}.
Proof.
  intros H. destruct argv as [| a [| b [| c [| d rest]]]]; try reflexivity.
  now elim H.
Qed.

(** ** Anomaly scan *)

(** C8: a scan with the higher of two thresholds reports a subset of
    what the scan with the lower one reports, and no more records; the
    two scans fail together, and only when the library is available but
    the store handle is gone. *)
Theorem anomalies_antitone (t1 t2 : Q) (p : process) :
  (t1 <= t2)%Q ->
  match fst (detect_anomalies handle_of atom_str t1 p),
        fst (detect_anomalies handle_of atom_str t2 p) with
  | Ok low, Ok high =>
      incl high low /\ (List.length high <= List.length low)%nat
  | Raise e1, Raise e2 => e1 = e2 /\ present p /\ atomspace p = None
  | _, _ => False
  end.
Proof.
  intros Hle. destruct p as [[sp |] [|] lg]; simpl.
  - destruct (filter_weaker (fun s => Qgtb (asti s) t2) (fun s => Qgtb (asti s) t1) sp)
      as [Hi Hl].
    { intros s. now apply Qgtb_antitone. }
    split.
    + now apply incl_map.
    + now rewrite !length_map.
  - split; [apply incl_refl | lia].
  - repeat split.
  - split; [apply incl_refl | lia].
Qed.

(** ** Pattern query *)

Lemma matching_length (pattern : string) (sp : AtomSpace) :
  List.length (matching handle_of atom_str pattern sp)
  = true_count atom_str pattern sp.
Proof.
  unfold matching. rewrite length_map.
  induction sp as [| s sp IH]; simpl; [reflexivity |].
  destruct (contains _ _); simpl; now rewrite IH.
Qed.

(** C4, as the code has it: in present mode, when no stored element
    matches, the query returns an empty sequence; when some do, it
    returns one record whose [matches] are the handles of the first ten
    of them, so [min(true_count, 10)] many, and whose [count] is
    [true_count]. *)
Theorem pattern_query_counts (pattern : string) (p : process) (sp : AtomSpace) :
  present p ->
  atomspace p = Some sp ->
  let n := true_count atom_str pattern sp in
  (n = 0%nat -> execute_pattern_matching handle_of atom_str pattern p = (Ok [], p))
  /\ (n <> 0%nat ->
      exists r ms,
        execute_pattern_matching handle_of atom_str pattern p = (Ok [r], p)
        /\ field "matches" r = Some (JArr (map JStr ms))
        /\ ms = firstn 10 (matching handle_of atom_str pattern sp)
        /\ List.length ms = Nat.min n 10
        /\ field "count" r = Some (JInt (Z.of_nat n))).
Proof.
  unfold present. destruct p as [osp av lg]; simpl. intros -> ->.
  pose proof (matching_length pattern sp) as Hlen.
  unfold execute_pattern_matching, bind, available, logged, receiver, ret; simpl.
  unfold get_atoms_by_type.
  destruct (matching handle_of atom_str pattern sp) as [| h hs] eqn:E.
  - simpl in Hlen. split; [reflexivity | congruence].
  - split; [simpl in Hlen; congruence |].
    intros _. exists
      (JObj [("pattern", JStr pattern);
             ("matches", JArr (map JStr (firstn 10 (h :: hs))));
             ("confidence", JFloat (4 # 5)%Q);
             ("count", JInt (Z.of_nat (List.length (h :: hs))))]),
      (firstn 10 (h :: hs)).
    repeat split.
    + rewrite length_firstn, Hlen. apply Nat.min_comm.
    + rewrite <- Hlen. reflexivity.
Qed.

(** ** Entities and their properties *)

Lemma add_properties_run (entity_node : Atom) (properties : list (string * json))
    (sp : AtomSpace) (av : bool) (lg : list entry) :
  add_properties py_str entity_node properties
    {| atomspace := Some sp; opencog_available := av; log := lg |}
  = (Ok tt, {| atomspace := Some (add_all py_str entity_node properties sp);
               opencog_available := av; log := lg |}).
Proof.
  revert sp. induction properties as [| prop rest IH]; intros sp; [reflexivity |].
  simpl. unfold bind, store, receiver, set_atomspace; simpl.
  unfold bind; simpl. apply IH.
Qed.

Lemma add_transaction_entity_run (entity_id : string)
    (properties : list (string * json)) (p : process) (sp : AtomSpace) :
  present p ->
  atomspace p = Some sp ->
  let entity_node := ConceptNode ("entity_" ++ entity_id) in
  add_transaction_entity handle_of py_str entity_id properties p
  = (Ok (handle_of entity_node),
     {| atomspace := Some (add_all py_str entity_node properties
                             (add_atom entity_node None sp));
        opencog_available := true; log := log p |}).
Proof.
  unfold present. destruct p as [osp av lg]; simpl. intros -> ->.
  unfold add_transaction_entity, bind, available, logged; simpl.
  unfold bind, store, receiver, set_atomspace; simpl. unfold bind; simpl.
  now rewrite add_properties_run.
Qed.

Lemma property_link_plain (name : string) (prop : string * json) :
  exists x y, property_link py_str (ConceptNode name) prop = EvaluationLink x y
              /\ plain x = true /\ plain y = true.
Proof. do 2 eexists. split; [reflexivity | split; reflexivity]. Qed.

Lemma property_link_key (name : string) (prop prop' : string * json) :
  property_link py_str (ConceptNode name) prop
  = property_link py_str (ConceptNode name) prop' ->
  fst prop = fst prop'.
Proof. unfold property_link; simpl. intros H. now injection H. Qed.

(** Adding the link of one property leaves the links of the properties
    under other keys held or not held as before. *)
Lemma holds_other_property (name : string) (prop prop' : string * json)
    (sp : AtomSpace) :
  fst prop <> fst prop' ->
  holds (property_link py_str (ConceptNode name) prop')
        (add_atom (property_link py_str (ConceptNode name) prop) None sp)
  = holds (property_link py_str (ConceptNode name) prop') sp.
Proof.
  intros Hk. apply eq_true_iff_eq. rewrite !holds_In, In_add_atom.
  assert (E : occurs (property_link py_str (ConceptNode name) prop')
                     (property_link py_str (ConceptNode name) prop) = false).
  { apply not_true_is_false. unfold property_link; simpl. intros H.
    repeat (apply orb_true_iff in H; destruct H as [H | H]);
      try discriminate H; apply Atom_eqb_eq in H; try discriminate H.
    apply Hk. now injection H. }
  rewrite E. apply or_false_true.
Qed.

Lemma add_all_keeps (name : string) (properties : list (string * json))
    (b : Atom) (sp : AtomSpace) :
  In b (map atom sp) ->
  In b (map atom (add_all py_str (ConceptNode name) properties sp)).
Proof.
  unfold add_all. revert sp.
  induction properties as [| prop rest IH]; intros sp H; [assumption |].
  cbn [fold_left]. apply IH. apply In_add_atom. now left.
Qed.

(** The loop adds, in order, the link of each property the store did
    not hold. *)
Lemma evaluations_add_all (name : string) (properties : list (string * json))
    (sp : AtomSpace) :
  NoDup (map fst properties) ->
  evaluations (add_all py_str (ConceptNode name) properties sp)
  = (evaluations sp
     ++ missing sp (map (property_link py_str (ConceptNode name)) properties))%list.
Proof.
  revert sp. induction properties as [| prop rest IH]; intros sp Hnd.
  - simpl. now rewrite app_nil_r.
  - inversion Hnd as [| k ks Hk Hrest]; subst.
    unfold add_all in *. cbn [fold_left]. rewrite (IH _ Hrest).
    destruct (property_link_plain name prop) as (x & y & E & Hx & Hy).
    assert (Hm : missing (add_atom (property_link py_str (ConceptNode name) prop) None sp)
                   (map (property_link py_str (ConceptNode name)) rest)
                 = missing sp (map (property_link py_str (ConceptNode name)) rest)).
    { unfold missing. apply filter_ext_in. intros l Hl.
      apply in_map_iff in Hl as (prop' & <- & Hin). f_equal.
      apply holds_other_property. intros Heq. apply Hk.
      rewrite Heq. now apply in_map. }
    rewrite Hm. cbn [map]. unfold missing at 2. cbn [filter].
    fold (missing sp (map (property_link py_str (ConceptNode name)) rest)).
    rewrite E at 1. rewrite evaluations_add_link by assumption. rewrite <- E.
    destruct (holds (property_link py_str (ConceptNode name) prop) sp); simpl.
    + reflexivity.
    + now rewrite <- app_assoc.
Qed.

(** C6, as the code has it.  In mock mode [add_transaction_entity]
    creates no association, whatever the map holds: it answers
    [mock_entity_<id>] and leaves the process as it was.  In present mode
    with the store in place it returns the handle of the node
    [entity_<id>], which the store then holds, and the evaluation links of
    the store grow by one link per key of the map (the keys of a dict are
    distinct), each with the predicate [has_<key>] and the value turned
    into a string, save the links the store held already; from a store
    that held none of them the growth is exactly one link per key, and
    with an empty map the evaluation links are unchanged.  In present mode
    without the store handle the call raises and creates nothing. *)
Theorem add_entity_associations (entity_id : string)
    (properties : list (string * json)) (p : process) :
  NoDup (map fst properties) ->
  let entity_node := ConceptNode ("entity_" ++ entity_id) in
  let links :=
    map (fun prop => EvaluationLink (PredicateNode ("has_" ++ fst prop))
                       (ListLink entity_node (ConceptNode (py_str (snd prop)))))
        properties in
  (absent p ->
   add_transaction_entity handle_of py_str entity_id properties p
   = (Ok ("mock_entity_" ++ entity_id), p))
  /\ (forall sp, present p -> atomspace p = Some sp ->
      exists sp',
        add_transaction_entity handle_of py_str entity_id properties p
        = (Ok (handle_of entity_node),
           {| atomspace := Some sp'; opencog_available := true; log := log p |})
        /\ holds entity_node sp' = true
        /\ evaluations sp' = (evaluations sp ++ missing sp links)%list
        /\ ((forall l, In l links -> holds l sp = false) ->
            evaluations sp' = (evaluations sp ++ links)%list
            /\ List.length (evaluations sp')
               = (List.length (evaluations sp) + List.length properties)%nat)
        /\ (properties = [] -> evaluations sp' = evaluations sp))
  /\ (present p -> atomspace p = None ->
      exists e p',
        add_transaction_entity handle_of py_str entity_id properties p = (Raise e, p')
        /\ atomspace p' = None).
Proof.
  intros Hnd entity_node links. split; [| split].
  - destruct p as [osp av lg]. unfold absent. simpl. intros ->. reflexivity.
  - intros sp Hp Hsp.
    exists (add_all py_str entity_node properties (add_atom entity_node None sp)).
    assert (Hev : evaluations
                    (add_all py_str entity_node properties (add_atom entity_node None sp))
                  = (evaluations sp ++ missing sp links)%list).
    { unfold entity_node. rewrite evaluations_add_all by assumption.
      rewrite evaluations_add_plain by reflexivity. f_equal.
      unfold missing. apply filter_ext_in. intros l Hl. f_equal.
      apply in_map_iff in Hl as (prop & <- & _).
      apply eq_true_iff_eq. rewrite !holds_In, In_add_atom.
      rewrite plain_occurs by reflexivity. apply or_false_true. }
    split; [| split; [| split; [| split]]].
    + apply (add_transaction_entity_run entity_id properties Hp Hsp).
    + apply holds_In. apply add_all_keeps. apply In_add_atom. right. apply occurs_self.
    + exact Hev.
    + intros Hfresh. rewrite Hev, (@missing_nothing_held sp links Hfresh).
      split; [reflexivity |].
      rewrite length_app. unfold links. now rewrite length_map.
    + intros ->. rewrite Hev. unfold links, missing. cbn [map filter]. apply app_nil_r.
  - destruct p as [osp av lg]. unfold present. simpl. intros -> ->.
    do 2 eexists. split; reflexivity.
Qed.

(** ** The two modes side by side *)

Lemma anomaly_shape (s : Stored) :
  shape_of (anomaly handle_of atom_str s)
  = Some [("atom_id", KString); ("anomaly_score", KNumber);
          ("anomaly_type", KString); ("description", KString)].
Proof. reflexivity. Qed.

(** C1, as the code has it: with the library available and the store in
    place every operation returns in both modes, and the mock answer has
    the shape of the real one for ten of the thirteen operations; for the
    pattern query and the inference the mock record lacks one key of the
    real record ([count], [reasoning_path]), and for the anomaly scan the
    two records name the identifier differently ([entity_id] against
    [atom_id]) and agree on the other three keys. *)
Theorem mock_shape_against_present (c : call) (p q : process) (sp : AtomSpace) :
  absent p ->
  present q ->
  atomspace q = Some sp ->
  exists mock real,
    fst (run c p) = Ok mock
    /\ fst (run c q) = Ok real
    /\ mode_relation c mock real = true.
Proof.
  intros Hp Hq Hsp. exists (placeholder c).
  destruct (invoke_absent c Hp) as [Hmock _]. rewrite Hmock. clear Hmock Hp p.
  destruct c.
  4: { eexists. split; [reflexivity |]. split.
       - unfold invoke, text, bind.
         rewrite (add_transaction_entity_run entity_id properties Hq Hsp). reflexivity.
       - reflexivity. }
  all: destruct q as [osp av lg]; unfold present in Hq; simpl in Hq, Hsp; subst.
  1-4, 6, 9-12: eexists; (split; [reflexivity |]); (split; [reflexivity |]); reflexivity.
  - (* pattern query *)
    unfold invoke, rows, execute_pattern_matching, bind, available, logged,
      receiver, ret; simpl.
    destruct (matching handle_of atom_str pattern (get_atoms_by_type sp));
      eexists; (split; [reflexivity |]); (split; [reflexivity |]); reflexivity.
  - (* anomaly scan *)
    eexists. split; [reflexivity |]. split; [reflexivity |].
    unfold mode_relation, agree_on, records_all, placeholder.
    rewrite !andb_true_iff. repeat split.
    + cbn [forallb]. rewrite andb_true_r. apply forallb_forall.
      intros r Hr. apply in_map_iff in Hr as (s & <- & _). reflexivity.
    + apply forallb_forall.
      intros r Hr. apply in_map_iff in Hr as (s & <- & _). reflexivity.
  - (* insights *)
    unfold invoke, dict, get_cognitive_insights, bind, available, logged,
      container, receiver, ret; simpl.
    match goal with |- context [stored ?a ?b] => destruct (stored a b) end;
      eexists; (split; [reflexivity |]); (split; [reflexivity |]); reflexivity.
Qed.

(** The documented shape is the one the real branches give: with the
    library available and the store in place, every operation returns a
    value of it. *)
Lemma present_documented (c : call) (p : process) (sp : AtomSpace) :
  present p ->
  atomspace p = Some sp ->
  exists v, fst (run c p) = Ok v /\ documented c v = true.
Proof.
  intros Hp Hsp. destruct c.
  4: { eexists. split.
       - unfold invoke, text, bind.
         rewrite (add_transaction_entity_run entity_id properties Hp Hsp). reflexivity.
       - reflexivity. }
  all: destruct p as [osp av lg]; unfold present in Hp; simpl in Hp, Hsp; subst.
  1-4, 9-12: eexists; split; reflexivity.
  - (* pattern query *)
    unfold invoke, rows, execute_pattern_matching, bind, available, logged,
      receiver, ret; cbn -[firstn].
    destruct (matching handle_of atom_str pattern (get_atoms_by_type sp)) as [| h hs] eqn:E;
      eexists; (split; [reflexivity |]); [reflexivity |].
    unfold documented, has_kinds, up_to_ten_ids. cbn [forallb]. rewrite andb_true_r.
    apply andb_true_iff. split; [reflexivity |].
    change (field "matches" ?r) with (Some (JArr (map JStr (firstn 10 (h :: hs))))).
    apply andb_true_iff. split.
    + apply Nat.leb_le. rewrite length_map. apply firstn_le_length.
    + apply forallb_forall. intros r Hr. apply in_map_iff in Hr as (x & <- & _).
      reflexivity.
  - (* inference *)
    eexists. split; [reflexivity |].
    unfold documented, has_kinds, steps_within. simpl.
    now rewrite inference_steps_documented.
  - (* anomaly scan *)
    eexists. split; [reflexivity |]. unfold documented.
    apply forallb_forall. intros r Hr. apply in_map_iff in Hr as (s & <- & _).
    reflexivity.
  - (* insights *)
    unfold invoke, dict, get_cognitive_insights, bind, available, logged,
      container, receiver, ret; simpl.
    match goal with |- context [stored ?a ?b] => destruct (stored a b) end;
      eexists; split; reflexivity.
Qed.

(** ** Relationships and insights *)

(** C3 at its own input, in present mode from an empty store:
    [create_relationship("pays", "A", "B", 0.5)] succeeds and stores the
    link between the nodes [A] and [B], and
    [get_cognitive_insights("B")] then looks at the node [entity_B],
    which nothing points at, and reports [relationship_count] 0. *)
Theorem relationship_not_counted :
  let created := create_relationship handle_of "pays" "A" "B" (1 # 2)%Q Sample.ready in
  let link := EvaluationLink (PredicateNode "pays")
                (ListLink (ConceptNode "A") (ConceptNode "B")) in
  fst created = Ok (handle_of link)
  /\ (exists sp, atomspace (snd created) = Some sp /\ holds link sp = true)
  /\ exists r,
       fst (get_cognitive_insights get_predicate "B" (snd created)) = Ok r
       /\ field "relationship_count" r = Some (JInt 0).
Proof.
  cbv zeta. split; [reflexivity |]. split.
  - eexists. split; reflexivity.
  - eexists. split; reflexivity.
Qed.

(** The same relationship made to the node name [entity_B] is counted. *)
Lemma relationship_counted_under_node_name :
  let created :=
    create_relationship handle_of "pays" "A" "entity_B" (1 # 2)%Q Sample.ready in
  exists r,
    fst (get_cognitive_insights get_predicate "B" (snd created)) = Ok r
    /\ field "relationship_count" r = Some (JInt 1).
Proof. cbv zeta. eexists. split; reflexivity. Qed.

(** In mock mode the insights always report five relationships. *)
Lemma mock_relationship_count (entity_id : string) (p : process) :
  absent p ->
  exists r,
    fst (get_cognitive_insights get_predicate entity_id p) = Ok r
    /\ field "relationship_count" r = Some (JInt 5).
Proof.
  unfold absent. destruct p as [sp av lg]; simpl; intros ->.
  eexists. split; reflexivity.
Qed.

(** * The rest of the bridge *)

(** ** What every operation keeps *)

Lemma add_transaction_entity_stuck (entity_id : string)
    (properties : list (string * json)) (lg : list entry) :
  add_transaction_entity handle_of py_str entity_id properties
    {| atomspace := None; opencog_available := true; log := lg |}
  = (Raise (none_has_no "add_atom"),
     {| atomspace := None; opencog_available := true;
        log := (lg ++ [Message ERROR
                         ("Failed to add transaction entity " ++ entity_id ++ ": "
                          ++ exn_str (none_has_no "add_atom"))])%list |}).
Proof. reflexivity. Qed.

(** One operation on a process in present mode with its store: it
    returns, the store is still there unless the operation is [shutdown],
    and the log has grown. *)
Lemma invoke_usable (c : call) (sp : AtomSpace) (lg : list entry) :
  exists v sp' more,
    run c {| atomspace := Some sp; opencog_available := true; log := lg |}
    = (Ok v, {| atomspace := if is_shutdown c then None else Some sp';
                opencog_available := true; log := (lg ++ more)%list |}).
Proof.
  destruct c.
  4: { unfold invoke, text, bind.
       rewrite (@add_transaction_entity_run entity_id properties
                  {| atomspace := Some sp; opencog_available := true; log := lg |} sp
                  eq_refl eq_refl).
       do 2 eexists. exists []. simpl. now rewrite app_nil_r. }
  8: { unfold invoke, dict, get_cognitive_insights, bind, available, logged,
         container, receiver, ret; simpl.
       match goal with |- context [stored ?a ?b] => destruct (stored a b) end;
         do 2 eexists; exists []; simpl; now rewrite app_nil_r. }
  all: try (do 2 eexists; exists []; simpl; rewrite app_nil_r; reflexivity).
  all: try (do 3 eexists; reflexivity).
  Unshelve. all: exact [].
Qed.

Lemma invoke_mode_log (c : call) (p : process) :
  opencog_available (snd (run c p)) = opencog_available p
  /\ exists more, log (snd (run c p)) = (log p ++ more)%list.
Proof.
  destruct p as [[sp |] [|] lg].
  - destruct (invoke_usable c sp lg) as (v & sp' & more & ->). simpl. eauto.
  - destruct c; simpl;
      (split; [reflexivity |
        first [ exists []; simpl; rewrite app_nil_r; reflexivity
              | eexists; reflexivity ]]).
  - destruct c; try rewrite add_transaction_entity_stuck; simpl;
      (split; [reflexivity |
        first [ exists []; simpl; rewrite app_nil_r; reflexivity
              | eexists; reflexivity ]]).
  - destruct c; simpl;
      (split; [reflexivity |
        first [ exists []; simpl; rewrite app_nil_r; reflexivity
              | eexists; reflexivity ]]).
Qed.

(** No operation changes the mode, and none removes a line of the log:
    the choice between mock and real made at acquisition stands for the
    life of the process. *)
Theorem operations_keep_mode (c : call) (p : process) :
  opencog_available (snd (run c p)) = opencog_available p
  /\ exists more, log (snd (run c p)) = (log p ++ more)%list.
Proof. exact (invoke_mode_log c p). Qed.

(** ** When an operation fails *)

(** One operation in present mode once the store handle is gone. *)
Lemma invoke_stuck (c : call) (lg : list entry) :
  let p := {| atomspace := None; opencog_available := true; log := lg |} in
  (touches_store c = true ->
   exists e text,
     run c p = (Raise e, {| atomspace := None; opencog_available := true;
                            log := (lg ++ [Message ERROR text])%list |})
     /\ exists msg, e = AttributeError msg \/ e = TypeError msg)
  /\ (touches_store c = false -> exists v, fst (run c p) = Ok v).
Proof.
  cbv zeta. destruct c; simpl touches_store; split; intros H; try discriminate H.
  all: try (eexists; reflexivity).
  all: do 2 eexists; (split; [reflexivity |]); eexists;
    first [left; reflexivity | right; reflexivity].
Qed.

(** The failure path of the real branches.  With the library available
    and the store handle gone, an operation raises exactly when it is one
    that reaches for the store; the globals then stay as they were, and
    one ERROR line is logged before the exception goes on to the
    caller. *)
Theorem operation_raises_without_handle (c : call) (p : process) :
  opencog_available p = true ->
  atomspace p = None ->
  ((exists e, fst (run c p) = Raise e) <-> touches_store c = true)
  /\ forall e, fst (run c p) = Raise e ->
       atomspace (snd (run c p)) = None
       /\ opencog_available (snd (run c p)) = true
       /\ exists text, log (snd (run c p)) = (log p ++ [Message ERROR text])%list.
Proof.
  destruct p as [sp av lg]; simpl; intros -> ->.
  destruct (invoke_stuck c lg) as [Hyes Hno]. cbv zeta in Hyes, Hno.
  destruct (touches_store c).
  - destruct (Hyes eq_refl) as (e & text & E & He). rewrite E. simpl. split.
    + split; [reflexivity | eauto].
    + intros e' _. repeat split; eauto.
  - destruct (Hno eq_refl) as (v & E). rewrite E. split.
    + split; [intros (e & H); discriminate H | discriminate].
    + intros e H. discriminate H.
Qed.

(** ** After shutdown *)

(** [shutdown] always returns and drops the store handle but leaves the
    availability flag alone; so in present mode each operation that
    reaches for the store raises when called after it, while in mock mode
    every operation goes on answering its placeholder. *)
Theorem use_after_shutdown (c : call) (p : process) :
  let closed := snd (run Shutdown p) in
  fst (run Shutdown p) = Ok NoValue
  /\ atomspace closed = None
  /\ opencog_available closed = opencog_available p
  /\ (opencog_available p = true -> touches_store c = true ->
      exists e, fst (run c closed) = Raise e)
  /\ (opencog_available p = true -> touches_store c = false ->
      exists v, fst (run c closed) = Ok v)
  /\ (opencog_available p = false -> fst (run c closed) = Ok (placeholder c)).
Proof.
  cbv zeta.
  assert (H : exists lg,
            run Shutdown p
            = (Ok NoValue, {| atomspace := None;
                              opencog_available := opencog_available p; log := lg |})).
  { destruct p as [[sp |] [|] lg]; eexists; reflexivity. }
  destruct H as (lg & E). rewrite E. simpl. repeat split.
  - intros Hav Hc. rewrite Hav.
    destruct (invoke_stuck c lg) as [Hyes _]. cbv zeta in Hyes.
    destruct (Hyes Hc) as (e & text & Er & _). rewrite Er. simpl. eauto.
  - intros Hav Hc. rewrite Hav.
    destruct (invoke_stuck c lg) as [_ Hno]. exact (Hno Hc).
  - intros Hav. apply invoke_absent. exact Hav.
Qed.

(** ** The dispatcher, function by function *)

Local Abbreviation pick := (dispatch handle_of atom_str get_predicate py_str).
Local Abbreviation serve := (served handle_of atom_str get_predicate py_str).

Ltac decode :=
  unfold reading, typed;
  repeat match goal with
  | |- context [subscript ?p ?k] => destruct (subscript p k)
  | |- context [as_str ?v] => destruct (as_str v)
  | |- context [as_int ?v] => destruct (as_int v)
  | |- context [as_float ?v] => destruct (as_float v)
  | |- context [as_dict ?v] => destruct (as_dict v)
  end.

Ltac pick_call :=
  first
    [ exists InitializeAtomspace; split; reflexivity
    | eexists (CreateConceptNode _); split; reflexivity
    | eexists (CreatePredicateNode _); split; reflexivity
    | eexists (AddTransactionEntity _ _); split; reflexivity
    | eexists (CreateRelationship _ _ _ _); split; reflexivity
    | eexists (ExecutePatternMatching _); split; reflexivity
    | eexists (RunPlnInference _ _); split; reflexivity
    | eexists (DetectAnomalies _); split; reflexivity
    | eexists (GetCognitiveInsights _); split; reflexivity
    | exists ClearAtomspace; split; reflexivity
    | exists TestConnection; split; reflexivity
    | exists GetOpencogVersion; split; reflexivity
    | exists Shutdown; split; reflexivity ].

(** Whatever [main] decides to run is one of the thirteen functions, an
    exception raised while reading the request, or the inference on values
    of other types. *)
Lemma dispatch_cases (name : string) (parameters : json) (m : M value) :
  pick name parameters = Some m ->
  (exists c, name_of c = name /\ m = serve c)
  \/ (exists e, m = raise e)
  \/ (exists query max_steps,
        m = rows (run_pln_inference_untyped py_str query max_steps)).
Proof.
  unfold dispatch.
  repeat match goal with
  | |- context [String.eqb name ?b] =>
      destruct (String.eqb_spec name b) as [-> | _]
  end.
  all: decode; intros H; try discriminate H; injection H as <-.
  all: first [ right; left; eexists; reflexivity
             | left; pick_call
             | right; right; do 2 eexists; reflexivity ].
Qed.

Lemma ensure_spec (world : acquisition) (p : process) :
  exists p1,
    ensure world p = (Ok tt, p1)
    /\ (atomspace p <> None -> p1 = p)
    /\ (atomspace p = None -> opencog_available p1 = negb (failed world))
    /\ exists more, log p1 = (log p ++ more)%list.
Proof.
  unfold ensure. destruct p as [[sp |] av lg]; simpl.
  - eexists. split; [reflexivity |]. repeat split.
    + intros H; discriminate H.
    + exists []. now rewrite app_nil_r.
  - destruct world as [e | e | e |]; try destruct e;
      (eexists; split; [reflexivity |]; repeat split;
       [intros H; now elim H | eexists; reflexivity]).
Qed.

Lemma main_carried (world : acquisition) (prog payload : string)
    (fields : list (string * json)) (c : call) (p : process) :
  load json_loads payload = Ok (JObj fields) ->
  carries fields c ->
  pick (name_of c) (JObj fields) = Some (serve c)
  /\ script world [prog; name_of c; payload] p
     = Some (match serve c (snd (ensure world p)) with
             | (Ok v, p') => {| status := 0; stdout := printed v; final := p' |}
             | (Raise e, p') =>
                 {| status := 1; stdout := [];
                    final := snd (report (name_of c) e p') |}
             end).
Proof.
  intros Hload Hc.
  assert (Hd : pick (name_of c) (JObj fields) = Some (serve c)).
  { destruct c; simpl in Hc; unfold dispatch; simpl String.eqb; cbv iota;
      unfold reading, typed, subscript;
      repeat match goal with
      | H : _ /\ _ |- _ => destruct H
      | H : lookup _ _ = Some _ |- _ => rewrite H; clear H
      end; reflexivity. }
  split; [exact Hd |].
  unfold main, attempt. rewrite Hload, Hd. unfold bind.
  destruct (ensure_spec world p) as (p1 & E & _). rewrite E. simpl.
  destruct (serve c p1) as [[v | e] p']; reflexivity.
Qed.

(** The fields of the payload are read by name: an object that carries
    the arguments of a call under the parameter names, in any order and
    among any other fields, makes [main] run that function on those
    arguments, print what it returns and exit with 0, or log what it raises
    and exit with 1. *)
Theorem payload_fields_reach_function (world : acquisition) (prog payload : string)
    (fields : list (string * json)) (c : call) (p : process) :
  load json_loads payload = Ok (JObj fields) ->
  carries fields c ->
  pick (name_of c) (JObj fields) = Some (serve c)
  /\ script world [prog; name_of c; payload] p
     = Some (match serve c (snd (ensure world p)) with
             | (Ok v, p') => {| status := 0; stdout := printed v; final := p' |}
             | (Raise e, p') =>
                 {| status := 1; stdout := [];
                    final := snd (report (name_of c) e p') |}
             end).
Proof. apply main_carried. Qed.

(** A payload that does not parse ends the run with status 1 and nothing
    printed, whatever the function name, known or not; the acquisition has
    been attempted before, and the last two log entries report the parse
    error under the function's name. *)
Theorem malformed_payload_fails (world : acquisition) (prog name payload : string)
    (e : exn) (p : process) :
  load json_loads payload = Raise e ->
  exists o before,
    script world [prog; name; payload] p = Some o
    /\ status o = 1
    /\ stdout o = []
    /\ log (final o)
       = (before ++ [Message ERROR ("Error executing function " ++ name ++ ": "
                                    ++ exn_str e);
                     Trace e])%list
    /\ (atomspace p = None -> opencog_available (final o) = negb (failed world)).
Proof.
  intros Hload. unfold main, attempt. rewrite Hload. unfold bind.
  destruct (ensure_spec world p) as (p1 & E & _ & Hav & _). rewrite E. simpl.
  eexists. exists (log p1). split; [reflexivity |]. repeat split.
  - simpl. now rewrite <- app_assoc.
  - exact Hav.
Qed.

Lemma first_missing_found (fields : list (string * json)) (keys : list string)
    (key : string) :
  In key keys ->
  lookup key fields = None ->
  exists key', first_missing fields keys = Some key'
               /\ In key' keys /\ lookup key' fields = None.
Proof.
  intros Hin Hnone. unfold first_missing.
  destruct (find _ keys) as [key' |] eqn:E.
  - apply find_some in E as [Hin' Hk]. exists key'. repeat split; trivial.
    destruct (lookup key' fields); [discriminate | reflexivity].
  - apply (find_none _ _ E) in Hin. now rewrite Hnone in Hin.
Qed.

Lemma dispatch_first_missing (name key : string) (fields : list (string * json)) :
  first_missing fields (required name) = Some key ->
  pick name (JObj fields) = Some (raise (KeyError key)).
Proof.
  unfold required, dispatch, first_missing.
  repeat match goal with
  | |- context [String.eqb name ?b] =>
      destruct (String.eqb_spec name b) as [-> | _]
  end; simpl; try discriminate.
  all: unfold reading, subscript;
    repeat match goal with
    | |- context [lookup ?k ?f] => destruct (lookup k f) eqn:?
    end; intros H; try discriminate H; injection H as <-; reflexivity.
Qed.

(** A payload object that lacks a field the function needs never reaches
    the function, whatever its other fields hold: the run ends with status
    1 and nothing printed, and the log ends with the [KeyError] of the
    first field, in the order [main] reads them, that the object lacks. *)
Theorem missing_parameter_fails (world : acquisition) (prog name payload key : string)
    (fields : list (string * json)) (p : process) :
  load json_loads payload = Ok (JObj fields) ->
  In key (required name) ->
  lookup key fields = None ->
  exists o key' before,
    script world [prog; name; payload] p = Some o
    /\ status o = 1
    /\ stdout o = []
    /\ first_missing fields (required name) = Some key'
    /\ lookup key' fields = None
    /\ log (final o)
       = (before ++ [Message ERROR ("Error executing function " ++ name
                                    ++ ": '" ++ key' ++ "'");
                     Trace (KeyError key')])%list.
Proof.
  intros Hload Hin Hnone.
  destruct (first_missing_found fields (required name) key Hin Hnone)
    as (key' & Hfirst & _ & Hnone').
  unfold main, attempt. rewrite Hload, (dispatch_first_missing name fields Hfirst).
  unfold bind. destruct (ensure_spec world p) as (p1 & E & _). rewrite E. simpl.
  eexists. exists key', (log p1). split; [reflexivity |].
  repeat split; try assumption. simpl. now rewrite <- app_assoc.
Qed.

Lemma untyped_mode (query max_steps : json) (p : process) :
  opencog_available (snd (rows (run_pln_inference_untyped py_str query max_steps) p))
  = opencog_available p.
Proof.
  destruct p as [sp [|] lg]; unfold rows, run_pln_inference_untyped, bind, available,
    logged; simpl.
  - destruct (py_min max_steps 3); reflexivity.
  - destruct (py_min max_steps 5); reflexivity.
Qed.

Lemma served_mode (c : call) (p : process) :
  opencog_available (snd (serve c p)) = opencog_available p.
Proof.
  destruct c; try apply invoke_mode_log.
  all: destruct p as [[sp |] [|] lg]; reflexivity.
Qed.

(** [main] attempts the acquisition exactly when the store handle is
    [None].  With a handle in place the outcome does not depend on how an
    acquisition would end; without one, the run ends in the mode the
    acquisition decided. *)
Theorem acquisition_only_without_handle (world : acquisition)
    (prog name payload : string) (p : process) :
  (atomspace p <> None ->
   forall world', script world [prog; name; payload] p
                  = script world' [prog; name; payload] p)
  /\ (atomspace p = None ->
      forall o, script world [prog; name; payload] p = Some o ->
                opencog_available (final o) = negb (failed world)).
Proof.
  split.
  - intros Hsp world'. unfold main, attempt.
    destruct (ensure_spec world p) as (p1 & E1 & H1 & _).
    destruct (ensure_spec world' p) as (p2 & E2 & H2 & _).
    rewrite (H1 Hsp) in E1. rewrite (H2 Hsp) in E2.
    destruct (load json_loads payload) as [parameters | e].
    + destruct (pick name parameters); [| reflexivity].
      unfold bind. now rewrite E1, E2.
    + unfold bind. now rewrite E1, E2.
  - intros Hsp o. unfold main, attempt.
    destruct (ensure_spec world p) as (p1 & E & _ & Hav & _). specialize (Hav Hsp).
    destruct (load json_loads payload) as [parameters | e].
    + destruct (pick name parameters) as [m |] eqn:Hd; [| discriminate].
      unfold bind. rewrite E.
      destruct (dispatch_cases _ _ Hd) as [(c & _ & ->) | [(e & ->) | (q & ms & ->)]].
      * pose proof (served_mode c p1) as Hm.
        destruct (serve c p1) as [[v | e] p']; simpl in Hm;
          intros H; injection H as <-; simpl; congruence.
      * simpl. intros H; injection H as <-. exact Hav.
      * pose proof (untyped_mode q ms p1) as Hm.
        destruct (rows (run_pln_inference_untyped py_str q ms) p1) as [[v | e] p'];
          simpl in Hm; intros H; injection H as <-; simpl; congruence.
    + unfold bind. rewrite E. simpl. intros H; injection H as <-. exact Hav.
Qed.

(** The five functions without arguments never look into the payload:
    any two payloads that parse give the same run.  (The payload is still
    parsed first, so one that does not parse fails the run.) *)
Theorem parameterless_ignore_payload (world : acquisition)
    (prog name payload payload' : string) (v v' : json) (p : process) :
  In name parameterless ->
  load json_loads payload = Ok v ->
  load json_loads payload' = Ok v' ->
  script world [prog; name; payload] p = script world [prog; name; payload'] p
  /\ exists o, script world [prog; name; payload] p = Some o.
Proof.
  intros Hin Hv Hv'. unfold main, attempt. rewrite Hv, Hv'.
  assert (Hd : pick name v = pick name v' /\ exists m, pick name v = Some m).
  { simpl in Hin.
    repeat (destruct Hin as [<- | Hin]; [split; [reflexivity | eexists; reflexivity] |]).
    destruct Hin. }
  destruct Hd as (Hd & m & Hm). rewrite <- Hd, Hm. split; [reflexivity |].
  unfold bind. destruct (ensure_spec world p) as (p1 & E & _). rewrite E.
  destruct (m p1) as [[x | e] p']; eexists; reflexivity.
Qed.

(** ** What each operation does to the store *)

Lemma invoke_effect (c : call) (sp : AtomSpace) (lg : list entry) :
  exists v more,
    run c {| atomspace := Some sp; opencog_available := true; log := lg |}
    = (Ok v, {| atomspace := if is_shutdown c then None
                             else Some (store_after py_str c sp);
                opencog_available := true; log := (lg ++ more)%list |}).
Proof.
  destruct c.
  4: { unfold invoke, text, bind.
       rewrite (@add_transaction_entity_run entity_id properties
                  {| atomspace := Some sp; opencog_available := true; log := lg |} sp
                  eq_refl eq_refl).
       eexists. exists []. simpl. now rewrite app_nil_r. }
  8: { unfold invoke, dict, get_cognitive_insights, bind, available, logged,
         container, receiver, ret; simpl.
       match goal with |- context [stored ?a ?b] => destruct (stored a b) end;
         eexists; exists []; simpl; now rewrite app_nil_r. }
  all: try (eexists; exists []; simpl; rewrite app_nil_r; reflexivity).
  all: do 2 eexists; reflexivity.
Qed.

(** The store handle after a call.  In mock mode no operation but
    [shutdown] touches it.  In present mode the four creating operations
    add their atoms, [clear_atomspace] empties the store, [shutdown] drops
    the handle, and the seven others, the queries among them, leave the
    store exactly as it was; a call that raises changes nothing. *)
Theorem store_effect (c : call) (p : process) :
  atomspace (snd (run c p)) = handle_after py_str c p.
Proof.
  unfold handle_after. destruct p as [[sp |] [|] lg].
  - destruct (invoke_effect c sp lg) as (v & more & ->). simpl.
    now destruct (is_shutdown c).
  - destruct c; reflexivity.
  - destruct c; reflexivity.
  - destruct c; reflexivity.
Qed.

(** After [clear_atomspace] in present mode every query comes back empty,
    whatever was stored before: no pattern matches, no atom is an anomaly,
    and the insights of any entity count no relationship and no pattern,
    with score and attention zero. *)
Theorem cleared_store_answers_empty (p : process) (sp : AtomSpace)
    (pattern entity_id : string) (threshold : Q) :
  opencog_available p = true ->
  atomspace p = Some sp ->
  let cleared := snd (clear_atomspace p) in
  fst (clear_atomspace p) = Ok tt
  /\ atomspace cleared = Some []
  /\ fst (execute_pattern_matching handle_of atom_str pattern cleared) = Ok []
  /\ fst (detect_anomalies handle_of atom_str threshold cleared) = Ok []
  /\ fst (get_cognitive_insights get_predicate entity_id cleared)
     = Ok (JObj [("entity_id", JStr entity_id);
                 ("behavioral_patterns", JArr []);
                 ("cognitive_score", JFloat 0);
                 ("attention_level", JFloat 0);
                 ("relationship_count", JInt 0)]).
Proof.
  destruct p as [osp av lg]; simpl. intros -> ->. repeat split.
Qed.

(** ** Relationships *)


(** ** Insights *)

Lemma behavioral_length (incoming : list Atom) :
  (List.length (behavioral get_predicate incoming) <= List.length incoming)%nat.
Proof.
  induction incoming as [| link rest IH]; simpl; [lia |].
  destruct (get_predicate link) as [name |]; [| lia].
  destruct (contains "behavior" (lower name)); simpl; lia.
Qed.

Lemma behavioral_sound (incoming : list Atom) (name : string) :
  In name (behavioral get_predicate incoming) <->
  exists link, In link incoming
               /\ get_predicate link = Some name
               /\ contains "behavior" (lower name) = true.
Proof.
  induction incoming as [| link rest IH]; simpl.
  - split; [intros [] | intros (l & [] & _)].
  - destruct (get_predicate link) as [n |] eqn:E.
    + destruct (contains "behavior" (lower n)) eqn:C; simpl; rewrite IH; split.
      * intros [<- | (l & Hl & Hp & Hc)]; [exists link; auto | exists l; auto].
      * intros (l & [<- | Hl] & Hp & Hc);
          [left; congruence | right; exists l; auto].
      * intros (l & Hl & Hp & Hc). exists l; auto.
      * intros (l & [<- | Hl] & Hp & Hc); [congruence | exists l; auto].
    + rewrite IH. split.
      * intros (l & Hl & Hp & Hc). exists l; auto.
      * intros (l & [<- | Hl] & Hp & Hc); [congruence | exists l; auto].
Qed.

(** Whenever the insights are returned (in mock mode always, in present
    mode when the store is in place), the behavioural patterns listed are
    no more than the relationships counted; in present mode the count is
    the number of stored atoms pointing at the node [entity_<id>], and the
    patterns are the predicate names of those atoms that contain
    "behavior" in any letter case. *)
Theorem patterns_within_relationships (entity_id : string) (p : process) :
  (opencog_available p = true -> atomspace p <> None) ->
  exists r patterns count,
    get_cognitive_insights get_predicate entity_id p = (Ok r, p)
    /\ field "entity_id" r = Some (JStr entity_id)
    /\ field "behavioral_patterns" r = Some (JArr (map JStr patterns))
    /\ field "relationship_count" r = Some (JInt count)
    /\ Z.of_nat (List.length patterns) <= count
    /\ (opencog_available p = true ->
        forall sp, atomspace p = Some sp ->
          let incoming := get_incoming (ConceptNode ("entity_" ++ entity_id)) sp in
          count = Z.of_nat (List.length incoming)
          /\ forall name, In name patterns <->
               exists link, In link incoming
                            /\ get_predicate link = Some name
                            /\ contains "behavior" (lower name) = true).
Proof.
  destruct p as [[sp |] [|] lg]; simpl; intros Hok.
  - unfold get_cognitive_insights, bind, available, logged, container, receiver, ret;
      simpl.
    match goal with |- context [stored ?a ?b] => destruct (stored a b) end.
    all: eexists;
      exists (behavioral get_predicate
                (get_incoming (ConceptNode ("entity_" ++ entity_id)) sp));
      eexists; (split; [reflexivity |]); repeat split;
      try apply inj_le; try apply behavioral_length.
    all: match goal with E : Some _ = Some _ |- _ => injection E as <- end.
    all: try reflexivity.
    all: first [ intros Hin; apply behavioral_sound in Hin; exact Hin
               | intros Hex; apply behavioral_sound; exact Hex ].
  - eexists. exists ["mock_pattern_1"; "mock_pattern_2"]. eexists.
    split; [reflexivity |]. repeat split; try discriminate.
  - now elim (Hok eq_refl).
  - eexists. exists ["mock_pattern_1"; "mock_pattern_2"]. eexists.
    split; [reflexivity |]. repeat split; try discriminate.
Qed.

(** ** Anomaly scan, exactly *)

(** In present mode the scan leaves the process as it is and reports, in
    store order, one record per atom whose importance is strictly above
    the threshold, carrying that importance as its score; an atom whose
    importance is at or below the threshold is never reported. *)
Theorem anomalies_exact (threshold : Q) (p : process) (sp : AtomSpace) :
  opencog_available p = true ->
  atomspace p = Some sp ->
  exists records,
    detect_anomalies handle_of atom_str threshold p = (Ok records, p)
    /\ records
       = map (anomaly handle_of atom_str)
           (filter (fun s => Qgtb (asti s) threshold) sp)
    /\ (forall r, In r records <->
          exists s, In s sp /\ (threshold < asti s)%Q
                    /\ r = anomaly handle_of atom_str s)
    /\ (forall r, In r records ->
          exists score, field "anomaly_score" r = Some (JFloat score)
                        /\ (threshold < score)%Q)
    /\ (forall s, (asti s <= threshold)%Q ->
          ~ In (anomaly handle_of atom_str s) records).
Proof.
  destruct p as [osp av lg]; simpl. intros -> ->.
  eexists. split; [reflexivity |]. split; [reflexivity |].
  unfold get_atoms_by_type.
  assert (Hiff : forall r,
            In r (map (anomaly handle_of atom_str)
                    (filter (fun s => Qgtb (asti s) threshold) sp)) <->
            exists s, In s sp /\ (threshold < asti s)%Q
                      /\ r = anomaly handle_of atom_str s).
  { intros r. rewrite in_map_iff. split.
    - intros (s & <- & Hs). apply filter_In in Hs as [Hin Hgt].
      exists s. repeat split; trivial. now apply Qgtb_lt.
    - intros (s & Hin & Hlt & ->). exists s. split; [reflexivity |].
      apply filter_In. split; trivial. now apply Qgtb_lt. }
  split; [exact Hiff |]. split.
  - intros r Hr. apply Hiff in Hr as (s & _ & Hlt & ->).
    exists (asti s). split; [reflexivity | assumption].
  - intros s Hle Hin. apply Hiff in Hin as (s' & _ & Hlt & E).
    unfold anomaly in E. injection E as _ E _. rewrite E in Hle.
    now apply (Qlt_not_le _ _ Hlt).
Qed.

(** ** Pattern query at the edges *)

Lemma matching_empty_pattern (sp : AtomSpace) :
  matching handle_of atom_str "" sp = map (fun s => handle_of (atom s)) sp.
Proof.
  unfold matching. f_equal. induction sp as [| s sp IH]; [reflexivity |].
  simpl. rewrite contains_empty. f_equal. exact IH.
Qed.

(** The empty pattern matches every stored atom: on a store that is not
    empty the query returns one record whose [count] is the size of the
    store and whose [matches] are the handles of its first ten atoms; on an
    empty store it returns no record. *)
Theorem empty_pattern_matches_all (p : process) (sp : AtomSpace) :
  opencog_available p = true ->
  atomspace p = Some sp ->
  true_count atom_str "" sp = List.length sp
  /\ (sp = [] -> execute_pattern_matching handle_of atom_str "" p = (Ok [], p))
  /\ (sp <> [] ->
      exists r,
        execute_pattern_matching handle_of atom_str "" p = (Ok [r], p)
        /\ field "count" r = Some (JInt (Z.of_nat (List.length sp)))
        /\ field "matches" r
           = Some (JArr (map JStr (firstn 10 (map (fun s => handle_of (atom s)) sp))))).
Proof.
  destruct p as [osp av lg]; simpl. intros -> ->.
  assert (Hc : true_count atom_str "" sp = List.length sp).
  { rewrite <- matching_length, matching_empty_pattern. apply length_map. }
  split; [exact Hc |]. split.
  - intros ->. reflexivity.
  - intros Hne.
    unfold execute_pattern_matching, bind, available, logged, receiver, ret; simpl.
    unfold get_atoms_by_type. rewrite matching_empty_pattern.
    destruct sp as [| s sp]; [now elim Hne |].
    eexists. split; [reflexivity |]. split; [| reflexivity].
    simpl. now rewrite length_map.
Qed.

(** Letter case in the pattern does not matter: the query for a pattern
    and the query for its lower-case form select the same atoms, so their
    records have the same [matches] and the same [count]. *)
Theorem pattern_case_insensitive (pattern : string) (p : process) (sp : AtomSpace) :
  opencog_available p = true ->
  atomspace p = Some sp ->
  matching handle_of atom_str (lower pattern) sp = matching handle_of atom_str pattern sp
  /\ exists rows rows',
       execute_pattern_matching handle_of atom_str pattern p = (Ok rows, p)
       /\ execute_pattern_matching handle_of atom_str (lower pattern) p = (Ok rows', p)
       /\ map (field "matches") rows = map (field "matches") rows'
       /\ map (field "count") rows = map (field "count") rows'.
Proof.
  destruct p as [osp av lg]; simpl. intros -> ->.
  assert (Hm : matching handle_of atom_str (lower pattern) sp
               = matching handle_of atom_str pattern sp).
  { unfold matching. now rewrite lower_idempotent. }
  split; [exact Hm |].
  unfold execute_pattern_matching, bind, available, logged, receiver, ret; simpl.
  unfold get_atoms_by_type. rewrite Hm.
  destruct (matching handle_of atom_str pattern sp);
    do 2 eexists; repeat split; reflexivity.
Qed.

(** ** Acquisition, every way it can end *)

(** [initialize_opencog] always returns, and what it returns is the
    availability flag it leaves: [True] exactly when nothing raised.  A
    success, or a failure of the initialiser, installs a fresh empty
    store; a failure of the imports or of the constructor leaves the store
    handle as it was.  One log line is written: INFO on success, WARNING
    for an [ImportError], ERROR for any other exception. *)
Theorem acquisition_outcome (world : acquisition) (p : process) :
  exists p' lvl text,
    initialize_opencog world p = (Ok (negb (failed world)), p')
    /\ opencog_available p' = negb (failed world)
    /\ atomspace p'
       = match world with
         | ImportRaises _ | ConstructorRaises _ => atomspace p
         | InitializerRaises _ | Acquired => Some []
         end
    /\ log p' = (log p ++ [Message lvl text])%list
    /\ lvl = match world with
             | Acquired => INFO
             | ImportRaises (ImportError _) | ConstructorRaises (ImportError _)
             | InitializerRaises (ImportError _) => WARNING
             | _ => ERROR
             end.
Proof.
  destruct world as [e | e | e |]; try destruct e;
    do 3 eexists; repeat split; reflexivity.
Qed.

(** ** What stays in the store *)

Lemma add_all_holds_links (name : string) (properties : list (string * json))
    (sp : AtomSpace) (prop : string * json) (b : Atom) :
  In prop properties ->
  occurs b (property_link py_str (ConceptNode name) prop) = true ->
  holds b (add_all py_str (ConceptNode name) properties sp) = true.
Proof.
  unfold add_all. revert sp.
  induction properties as [| pr rest IH]; intros sp Hin Hb; [destruct Hin |].
  cbn [fold_left]. destruct Hin as [-> | Hin].
  - apply holds_In. apply (add_all_keeps name rest). apply In_add_atom. now right.
  - now apply IH.
Qed.

Lemma length_add_all (name : string) (properties : list (string * json))
    (sp : AtomSpace) :
  (List.length sp
   <= List.length (add_all py_str (ConceptNode name) properties sp))%nat.
Proof.
  unfold add_all. revert sp.
  induction properties as [| pr rest IH]; intros sp; [simpl; lia |].
  cbn [fold_left]. eapply Nat.le_trans; [apply length_add_atom | apply IH].
Qed.

Lemma store_after_keeps (c : call) (sp : AtomSpace) (a : Atom) :
  is_clear c = false ->
  holds a sp = true ->
  holds a (store_after py_str c sp) = true
  /\ (List.length sp <= List.length (store_after py_str c sp))%nat.
Proof.
  intros Hc Ha. destruct c; try discriminate Hc; unfold store_after;
    try (split; [assumption | lia]).
  - split; [now apply holds_add_atom_keeps | apply length_add_atom].
  - split; [now apply holds_add_atom_keeps | apply length_add_atom].
  - split.
    + apply holds_In, add_all_keeps, In_add_atom_keeps. now apply holds_In.
    + eapply Nat.le_trans; [apply length_add_atom | apply length_add_all].
  - split; [now apply holds_add_atom_keeps | apply length_add_atom].
Qed.

(** No operation but [clear_atomspace] and [shutdown] ever removes an
    atom: in present mode whatever the store held before a call it holds
    after it, and the store has not shrunk. *)
Theorem store_only_grows (c : call) (p : process) (sp : AtomSpace) :
  opencog_available p = true ->
  atomspace p = Some sp ->
  is_clear c = false ->
  is_shutdown c = false ->
  exists sp',
    atomspace (snd (run c p)) = Some sp'
    /\ (forall a, holds a sp = true -> holds a sp' = true)
    /\ (List.length sp <= List.length sp')%nat.
Proof.
  destruct p as [osp av lg]; simpl. intros -> -> Hc Hs.
  destruct (invoke_effect c sp lg) as (v & more & E). rewrite E, Hs. simpl.
  exists (store_after py_str c sp). split; [reflexivity |]. split.
  - intros a Ha. now apply store_after_keeps.
  - destruct sp as [| s sp].
    + simpl. lia.
    + apply (@store_after_keeps c (s :: sp) (atom s) Hc).
      simpl. unfold holds. simpl. now rewrite Atom_eqb_refl.
Qed.

(** ** Requests in mock mode, end to end *)

Lemma served_absent (c : call) (p : process) :
  opencog_available p = false ->
  exists v p',
    serve c p = (Ok v, p')
    /\ printed v = mock_output c
    /\ opencog_available p' = false.
Proof.
  destruct p as [[sp |] av lg]; simpl; intros ->;
    destruct c; do 2 eexists; repeat split.
Qed.

(** When the acquisition fails at the start of the process, every request
    that carries its arguments is served all the same: the run prints the
    placeholder of the operation (or the completion token of
    [clear_atomspace] and [shutdown]), exits with status 0 and ends in mock
    mode. *)
Theorem mock_requests_succeed (world : acquisition) (prog payload : string)
    (fields : list (string * json)) (c : call) (p : process) :
  failed world = true ->
  atomspace p = None ->
  load json_loads payload = Ok (JObj fields) ->
  carries fields c ->
  exists o,
    script world [prog; name_of c; payload] p = Some o
    /\ status o = 0
    /\ stdout o = mock_output c
    /\ opencog_available (final o) = false.
Proof.
  intros Hw Hsp Hload Hc.
  destruct (@main_carried world prog payload fields c p Hload Hc) as [_ ->].
  destruct (ensure_spec world p) as (p1 & E & _ & Hav & _).
  rewrite E. simpl. specialize (Hav Hsp). rewrite Hw in Hav. simpl in Hav.
  destruct (@served_absent c p1 Hav) as (v & p' & -> & Hv & Hp').
  eexists. split; [reflexivity |]. repeat split; assumption.
Qed.

(** ** Which atoms a pattern selects *)

(** In present mode the handles a pattern selects are those of the stored
    atoms whose string form, in lower case, can be cut around the pattern
    in lower case; and the query returns no record exactly when no stored
    atom is of that kind. *)
Theorem pattern_selects_substrings (pattern : string) (p : process) (sp : AtomSpace) :
  opencog_available p = true ->
  atomspace p = Some sp ->
  (forall h, In h (matching handle_of atom_str pattern sp) <->
     exists s, In s sp /\ h = handle_of (atom s)
               /\ exists pre post,
                    lower (atom_str (atom s)) = pre ++ lower pattern ++ post)
  /\ (fst (execute_pattern_matching handle_of atom_str pattern p) = Ok [] <->
      forall s, In s sp ->
        ~ exists pre post, lower (atom_str (atom s)) = pre ++ lower pattern ++ post).
Proof.
  destruct p as [osp av lg]; simpl. intros -> ->.
  assert (Hm : forall h, In h (matching handle_of atom_str pattern sp) <->
            exists s, In s sp /\ h = handle_of (atom s)
                      /\ exists pre post,
                           lower (atom_str (atom s)) = pre ++ lower pattern ++ post).
  { intros h. unfold matching. rewrite in_map_iff. split.
    - intros (s & <- & Hs). apply filter_In in Hs as [Hin Hc].
      exists s. repeat split; trivial. now apply contains_split.
    - intros (s & Hin & -> & Hc). exists s. split; [reflexivity |].
      apply filter_In. split; trivial. now apply contains_split. }
  split; [exact Hm |].
  unfold execute_pattern_matching, bind, available, logged, receiver, ret; simpl.
  unfold get_atoms_by_type.
  destruct (matching handle_of atom_str pattern sp) as [| h hs] eqn:E; simpl.
  - split; [| reflexivity]. intros _ s Hin Hc.
    assert (Hh : In (handle_of (atom s)) []).
    { apply Hm. exists s. auto. }
    destruct Hh.
  - split; [discriminate |]. intros Hnone.
    destruct (proj1 (Hm h) (or_introl eq_refl)) as (s & Hin & _ & Hc).
    now elim (Hnone s Hin).
Qed.

(** ** Entities seen through the insights *)

Lemma incoming_add_property (name : string) (prop : string * json) (sp : AtomSpace) :
  let entity := ConceptNode name in
  (List.length (get_incoming entity sp)
   <= List.length (get_incoming entity
                     (add_atom (property_link py_str entity prop) None sp))
   <= List.length (get_incoming entity sp) + 1)%nat.
Proof.
  cbv zeta. unfold property_link. cbn [add_atom].
  set (entity := ConceptNode name).
  set (pred := PredicateNode ("has_" ++ fst prop)).
  set (value := ConceptNode (py_str (snd prop))).
  set (s1 := insert pred None sp).
  set (s2 := insert entity None s1).
  set (s3 := insert value None s2).
  set (s4 := insert (ListLink entity value) None s3).
  pose proof (incoming_insert entity pred None sp) as H1.
  pose proof (incoming_insert entity entity None s1) as H2.
  pose proof (incoming_insert entity value None s2) as H3.
  pose proof (incoming_insert entity (ListLink entity value) None s3) as H4.
  pose proof (incoming_insert entity (EvaluationLink pred (ListLink entity value))
                None s4) as H5.
  fold s1 in H1. fold s2 in H2. fold s3 in H3. fold s4 in H4.
  assert (E1 : points_at entity pred = false) by reflexivity.
  assert (E2 : points_at entity entity = false) by reflexivity.
  assert (E3 : points_at entity value = false) by reflexivity.
  assert (E5 : points_at entity (EvaluationLink pred (ListLink entity value)) = false)
    by reflexivity.
  rewrite E1 in H1. rewrite E2 in H2. rewrite E3 in H3. rewrite E5 in H5.
  destruct (points_at entity (ListLink entity value)); cbv iota in H4; lia.
Qed.

Lemma incoming_add_all (name : string) (properties : list (string * json))
    (sp : AtomSpace) :
  let entity := ConceptNode name in
  (List.length (get_incoming entity sp)
   <= List.length (get_incoming entity (add_all py_str entity properties sp))
   <= List.length (get_incoming entity sp) + List.length properties)%nat.
Proof.
  cbv zeta. unfold add_all. revert sp.
  induction properties as [| prop rest IH]; intros sp; [simpl; lia |].
  cbn [fold_left]. pose proof (incoming_add_property name prop sp) as H.
  cbv zeta in H.
  specialize (IH (add_atom (property_link py_str (ConceptNode name) prop) None sp)).
  change (List.length (prop :: rest)) with (S (List.length rest)). lia.
Qed.

Lemma insights_count (entity_id : string) (sp : AtomSpace) (lg : list entry) :
  exists r,
    fst (get_cognitive_insights get_predicate entity_id
           {| atomspace := Some sp; opencog_available := true; log := lg |}) = Ok r
    /\ field "relationship_count" r
       = Some (JInt (Z.of_nat
                       (List.length
                          (get_incoming (ConceptNode ("entity_" ++ entity_id)) sp)))).
Proof.
  unfold get_cognitive_insights, bind, available, logged, container, receiver, ret;
    simpl.
  match goal with |- context [stored ?a ?b] => destruct (stored a b) end;
    eexists; split; reflexivity.
Qed.

(** The round trip through an entity: after [add_transaction_entity] in
    present mode, the insights of that entity count at least as many
    relationships as before and at most one more per property, and at
    least one when the map is not empty (properties whose values print
    alike share a list link, so the count can stay below the number of
    properties). *)
Theorem entity_properties_are_counted (entity_id : string)
    (properties : list (string * json)) (p : process) (sp : AtomSpace) :
  opencog_available p = true ->
  atomspace p = Some sp ->
  let added := snd (add_transaction_entity handle_of py_str entity_id properties p) in
  exists before after r r',
    fst (get_cognitive_insights get_predicate entity_id p) = Ok r
    /\ field "relationship_count" r = Some (JInt (Z.of_nat before))
    /\ fst (get_cognitive_insights get_predicate entity_id added) = Ok r'
    /\ field "relationship_count" r' = Some (JInt (Z.of_nat after))
    /\ (before <= after <= before + List.length properties)%nat
    /\ (properties <> [] -> 1 <= after)%nat.
Proof.
  intros Hav Hsp. cbv zeta.
  rewrite (add_transaction_entity_run entity_id properties Hav Hsp).
  destruct p as [osp av lg]; simpl in Hav, Hsp; subst. simpl snd.
  set (entity := ConceptNode ("entity_" ++ entity_id)).
  set (sp' := add_all py_str entity properties (add_atom entity None sp)).
  destruct (insights_count entity_id sp lg) as (r & Hr & Hc).
  destruct (insights_count entity_id sp' lg) as (r' & Hr' & Hc').
  exists (List.length (get_incoming entity sp)),
         (List.length (get_incoming entity sp')), r, r'.
  split; [exact Hr |]. split; [exact Hc |]. split; [exact Hr' |].
  split; [exact Hc' |]. split.
  - pose proof (incoming_insert entity entity None sp) as H0.
    assert (E : points_at entity entity = false) by reflexivity.
    rewrite E in H0. change (insert entity None sp) with (add_atom entity None sp) in H0.
    pose proof (incoming_add_all ("entity_" ++ entity_id) properties
                  (add_atom entity None sp)) as H1.
    cbv zeta in H1. fold entity in H1. fold sp' in H1. lia.
  - intros Hne. destruct properties as [| prop rest]; [now elim Hne |].
    set (value := ConceptNode (py_str (snd prop))).
    assert (Hin : In (ListLink entity value) (get_incoming entity sp')).
    { apply In_get_incoming. split.
      - unfold sp', entity.
        apply add_all_holds_links with (prop := prop); [now left |].
        unfold property_link. apply occurs_in_link. right. apply occurs_self.
      - unfold points_at. simpl. now rewrite Atom_eqb_refl. }
    destruct (get_incoming entity sp'); [destruct Hin | simpl; lia].
Qed.

End Properties.

(** * The theorems at concrete inputs *)

Lemma mock_operations_total_witness :
  absent startup
  /\ fst (invoke Sample.handle_of Sample.atom_str Sample.get_predicate Sample.py_str
            (RunPlnInference "risk" 7) startup)
     = Ok (Data (JArr [JObj [("query", JStr "risk");
                             ("inference_result", JStr "mock_inference_result");
                             ("confidence", JFloat (3 # 4)%Q);
                             ("steps", JInt 5)]]))
  /\ documented (RunPlnInference "risk" 7) (placeholder (RunPlnInference "risk" 7))
     = true.
Proof.
  split; [reflexivity |].
  destruct (@mock_operations_total Sample.handle_of Sample.atom_str Sample.get_predicate
              Sample.py_str (RunPlnInference "risk" 7) startup eq_refl)
    as (E & _ & D & _).
  split; [exact E | exact D].
Defined.

Lemma acquisition_failure_demotes_witness :
  failed (ImportRaises (ImportError "No module named 'opencog'")) = true
  /\ exists p',
       initialize_opencog (ImportRaises (ImportError "No module named 'opencog'")) startup
       = (Ok false, p')
       /\ absent p'.
Proof.
  split; [reflexivity |].
  destruct (acquisition_failure_demotes Sample.handle_of Sample.atom_str
              Sample.get_predicate Sample.py_str Sample.json_loads
              (ImportRaises (ImportError "No module named 'opencog'")) startup
              eq_refl) as [(p' & E & A & _) _].
  exists p'. split; assumption.
Defined.

Lemma present_inference_is_canned_witness :
  present Sample.ready
  /\ exists r,
       run_pln_inference "risk" 2 Sample.ready = (Ok [r], Sample.ready)
       /\ field "steps" r = Some (JInt 2).
Proof.
  split; [reflexivity |].
  destruct (@present_inference_is_canned "risk" 2 Sample.ready eq_refl)
    as (r & E & _ & _ & S & _).
  exists r. split; [exact E | exact S].
Defined.

Lemma unknown_operation_fails_witness :
  ~ In "not_a_real_op" operation_names
  /\ exists o,
       main Sample.handle_of Sample.atom_str Sample.get_predicate Sample.py_str
         Sample.json_loads Acquired ["opencog_bridge.py"; "not_a_real_op"; "{}"] startup
       = Some o
       /\ status o = 1
       /\ stdout o = [].
Proof.
  assert (H : ~ In "not_a_real_op" operation_names).
  { simpl. intuition discriminate. }
  split; [exact H |].
  apply (@unknown_operation_fails Sample.handle_of Sample.atom_str Sample.get_predicate
           Sample.py_str Sample.json_loads Acquired "opencog_bridge.py" "not_a_real_op"
           "{}" startup H).
Defined.

Lemma anomalies_antitone_witness :
  (0 <= 1)%Q
  /\ match fst (detect_anomalies Sample.handle_of Sample.atom_str 0%Q Sample.running),
           fst (detect_anomalies Sample.handle_of Sample.atom_str 1%Q Sample.running) with
     | Ok low, Ok high => incl high low /\ (List.length high <= List.length low)%nat
     | Raise e1, Raise e2 =>
         e1 = e2 /\ present Sample.running /\ atomspace Sample.running = None
     | _, _ => False
     end.
Proof.
  assert (H : (0 <= 1)%Q) by (unfold Qle; simpl; lia).
  split; [exact H |].
  apply (@anomalies_antitone Sample.handle_of Sample.atom_str 0%Q 1%Q Sample.running H).
Defined.

Lemma pattern_query_counts_witness :
  present Sample.running
  /\ atomspace Sample.running = Some Sample.ledger
  /\ true_count Sample.atom_str "NODE" Sample.ledger = 3%nat
  /\ exists r ms,
       execute_pattern_matching Sample.handle_of Sample.atom_str "NODE" Sample.running
       = (Ok [r], Sample.running)
       /\ field "matches" r = Some (JArr (map JStr ms))
       /\ List.length ms = 3%nat
       /\ field "count" r = Some (JInt 3).
Proof.
  split; [reflexivity |]. split; [reflexivity |]. split; [reflexivity |].
  destruct (@pattern_query_counts Sample.handle_of Sample.atom_str "NODE"
              Sample.running Sample.ledger eq_refl eq_refl)
    as [_ H].
  destruct H as (r & ms & E & Hm & _ & Hl & Hc); [discriminate |].
  exists r, ms. repeat split; assumption.
Defined.

Lemma add_entity_associations_witness :
  NoDup (map fst [("amount", JInt 100); ("currency", JStr "USD")])
  /\ absent startup
  /\ add_transaction_entity Sample.handle_of Sample.py_str "acct"
       [("amount", JInt 100); ("currency", JStr "USD")] startup
     = (Ok "mock_entity_acct", startup)
  /\ present Sample.ready
  /\ atomspace Sample.ready = Some []
  /\ exists sp',
       fst (add_transaction_entity Sample.handle_of Sample.py_str "acct"
              [("amount", JInt 100); ("currency", JStr "USD")] Sample.ready)
       = Ok (Sample.handle_of (ConceptNode "entity_acct"))
       /\ atomspace (snd (add_transaction_entity Sample.handle_of Sample.py_str "acct"
                            [("amount", JInt 100); ("currency", JStr "USD")] Sample.ready))
          = Some sp'
       /\ evaluations sp'
          = [EvaluationLink (PredicateNode "has_amount")
               (ListLink (ConceptNode "entity_acct") (ConceptNode "100"));
             EvaluationLink (PredicateNode "has_currency")
               (ListLink (ConceptNode "entity_acct") (ConceptNode "USD"))].
Proof.
  assert (Hnd : NoDup (map fst [("amount", JInt 100); ("currency", JStr "USD")])).
  { repeat constructor; simpl; intuition discriminate. }
  split; [exact Hnd |]. split; [reflexivity |].
  split.
  { apply (@add_entity_associations Sample.handle_of Sample.py_str "acct"
             [("amount", JInt 100); ("currency", JStr "USD")] startup Hnd).
    reflexivity. }
  split; [reflexivity |]. split; [reflexivity |].
  destruct (@add_entity_associations Sample.handle_of Sample.py_str "acct"
              [("amount", JInt 100); ("currency", JStr "USD")] Sample.ready Hnd)
    as (_ & H & _).
  destruct (H [] eq_refl eq_refl) as (sp' & E & _ & Hev & _).
  exists sp'. rewrite E. repeat split. exact Hev.
Defined.

Lemma mock_shape_against_present_witness :
  absent startup
  /\ present Sample.running
  /\ atomspace Sample.running = Some Sample.ledger
  /\ exists mock real,
       fst (invoke Sample.handle_of Sample.atom_str Sample.get_predicate Sample.py_str
              (DetectAnomalies (1 # 4)%Q) startup) = Ok mock
       /\ fst (invoke Sample.handle_of Sample.atom_str Sample.get_predicate Sample.py_str
                 (DetectAnomalies (1 # 4)%Q) Sample.running) = Ok real
       /\ mode_relation (DetectAnomalies (1 # 4)%Q) mock real = true.
Proof.
  split; [reflexivity |]. split; [reflexivity |]. split; [reflexivity |].
  apply (@mock_shape_against_present Sample.handle_of Sample.atom_str
           Sample.get_predicate Sample.py_str (DetectAnomalies (1 # 4)%Q)
           startup Sample.running Sample.ledger); reflexivity.
Defined.

(** * Where the code departs from a claim *)

(** C1 as stated fails: the mock record of the inference has four keys and
    the present-mode record has five. *)
Lemma inference_shape_differs :
  exists mock real,
    fst (invoke Sample.handle_of Sample.atom_str Sample.get_predicate Sample.py_str
           (RunPlnInference "risk" 1) startup) = Ok mock
    /\ fst (invoke Sample.handle_of Sample.atom_str Sample.get_predicate Sample.py_str
              (RunPlnInference "risk" 1) Sample.ready) = Ok real
    /\ keys_of_rows mock = [["query"; "inference_result"; "confidence"; "steps"]]
    /\ keys_of_rows real
       = [["query"; "inference_result"; "confidence"; "steps"; "reasoning_path"]]
    /\ same_shape mock real = false.
Proof. do 2 eexists. repeat split. Qed.

(** C4 as stated fails: no element of the store matches "usd", and the
    query returns no record, so no [matches] list and no [count] field. *)
Lemma pattern_query_without_match :
  true_count Sample.atom_str "euro" Sample.ledger = 0%nat
  /\ execute_pattern_matching Sample.handle_of Sample.atom_str "euro" Sample.running
     = (Ok [], Sample.running)
  /\ ~ exists r ms,
         fst (execute_pattern_matching Sample.handle_of Sample.atom_str "euro"
                Sample.running) = Ok [r]
         /\ field "matches" r = Some (JArr ms)
         /\ List.length ms = Nat.min (true_count Sample.atom_str "euro" Sample.ledger) 10
         /\ field "count" r
            = Some (JInt (Z.of_nat (true_count Sample.atom_str "euro" Sample.ledger))).
Proof.
  split; [reflexivity |]. split; [reflexivity |].
  intros (r & ms & H & _). discriminate H.
Qed.

(** C2 as stated fails, in two ways.  The mock answer of the pattern
    query is not of the documented shape: its record has no [count].  And
    not every input is answered: the request
    [run_pln_inference {query: risk, max_steps: 3 as a string}] raises
    [TypeError] in mock mode, and the script exits with status 1 and
    prints nothing. *)
Lemma mock_departs_from_documented :
  absent startup
  /\ (exists r,
        fst (invoke Sample.handle_of Sample.atom_str Sample.get_predicate Sample.py_str
               (ExecutePatternMatching "usd") startup) = Ok (Data (JArr [r]))
        /\ keys_of r = ["pattern"; "matches"; "confidence"]
        /\ field "count" r = None
        /\ documented (ExecutePatternMatching "usd") (Data (JArr [r])) = false)
  /\ fst (run_pln_inference_untyped Sample.py_str (JStr "risk") (JStr "3") startup)
     = Raise (TypeError "'<' not supported between instances of 'int' and 'str'")
  /\ (exists o,
        main Sample.handle_of Sample.atom_str Sample.get_predicate Sample.py_str
          (fun _ => Ok (JObj [("query", JStr "risk"); ("max_steps", JStr "3")]))
          (ImportRaises (ImportError "No module named 'opencog'"))
          ["opencog_bridge.py"; "run_pln_inference"; "{...}"] startup = Some o
        /\ absent (final o)
        /\ status o = 1
        /\ stdout o = []).
Proof.
  split; [reflexivity |]. split; [| split].
  - eexists. repeat split.
  - reflexivity.
  - eexists. repeat split.
Qed.

(** C6 as stated fails: in mock mode a map of two keys creates no
    association.  After an acquisition whose initialiser raised the store
    is in place and empty and the library is marked unavailable; the call
    answers the mock reference, and the store holds no evaluation link
    afterwards. *)
Lemma mock_add_entity_creates_nothing :
  exists p,
    initialize_opencog (InitializerRaises (BackendError "no scheme")) startup
    = (Ok false, p)
    /\ absent p
    /\ atomspace p = Some []
    /\ add_transaction_entity Sample.handle_of Sample.py_str "acct"
         [("amount", JInt 100); ("currency", JStr "USD")] p
       = (Ok "mock_entity_acct", p)
    /\ List.length [("amount", JInt 100); ("currency", JStr "USD")] = 2%nat
    /\ forall sp',
         atomspace (snd (add_transaction_entity Sample.handle_of Sample.py_str "acct"
                           [("amount", JInt 100); ("currency", JStr "USD")] p))
         = Some sp' ->
         evaluations sp' = [].
Proof.
  eexists. split; [reflexivity |]. repeat split.
  intros sp' H. injection H as <-. reflexivity.
Qed.

(** * The rest of the bridge at concrete inputs *)

Lemma payload_fields_reach_function_witness :
  load Sample.json_loads Sample.concept_request = Ok (JObj [("concept", JStr "acct")])
  /\ carries [("concept", JStr "acct")] (CreateConceptNode "acct")
  /\ dispatch Sample.handle_of Sample.atom_str Sample.get_predicate Sample.py_str
       "create_concept_node" (JObj [("concept", JStr "acct")])
     = Some (served Sample.handle_of Sample.atom_str Sample.get_predicate Sample.py_str
               (CreateConceptNode "acct")).
Proof.
  split; [reflexivity |]. split; [reflexivity |].
  apply (@payload_fields_reach_function Sample.handle_of Sample.atom_str
           Sample.get_predicate Sample.py_str Sample.json_loads Acquired
           "opencog_bridge.py" Sample.concept_request [("concept", JStr "acct")]
           (CreateConceptNode "acct") startup eq_refl eq_refl).
Defined.

Lemma malformed_payload_fails_witness :
  load Sample.json_loads Sample.broken_request
  = Raise (ValueError "Expecting value: line 1 column 1 (char 0)")
  /\ exists o before,
       main Sample.handle_of Sample.atom_str Sample.get_predicate Sample.py_str
         Sample.json_loads Acquired
         ["opencog_bridge.py"; "test_connection"; Sample.broken_request] startup
       = Some o
       /\ status o = 1
       /\ stdout o = []
       /\ log (final o)
          = (before
             ++ [Message ERROR ("Error executing function " ++ "test_connection" ++ ": "
                   ++ exn_str (ValueError "Expecting value: line 1 column 1 (char 0)"));
                 Trace (ValueError "Expecting value: line 1 column 1 (char 0)")])%list
       /\ (atomspace startup = None ->
           opencog_available (final o) = negb (failed Acquired)).
Proof.
  split; [reflexivity |].
  apply (@malformed_payload_fails Sample.handle_of Sample.atom_str Sample.get_predicate
           Sample.py_str Sample.json_loads Acquired "opencog_bridge.py"
           "test_connection" Sample.broken_request
           (ValueError "Expecting value: line 1 column 1 (char 0)") startup eq_refl).
Defined.

Lemma missing_parameter_fails_witness :
  load Sample.json_loads "{}" = Ok (JObj [])
  /\ In "to_entity" (required "create_relationship")
  /\ lookup "to_entity" [] = None
  /\ exists o key' before,
       main Sample.handle_of Sample.atom_str Sample.get_predicate Sample.py_str
         Sample.json_loads Acquired ["opencog_bridge.py"; "create_relationship"; "{}"]
         startup
       = Some o
       /\ status o = 1
       /\ stdout o = []
       /\ first_missing [] (required "create_relationship") = Some key'
       /\ lookup key' [] = None
       /\ log (final o)
          = (before
             ++ [Message ERROR ("Error executing function " ++ "create_relationship"
                                ++ ": '" ++ key' ++ "'");
                 Trace (KeyError key')])%list.
Proof.
  assert (Hin : In "to_entity" (required "create_relationship")).
  { simpl. tauto. }
  split; [reflexivity |]. split; [exact Hin |]. split; [reflexivity |].
  apply (@missing_parameter_fails Sample.handle_of Sample.atom_str
           Sample.get_predicate Sample.py_str Sample.json_loads Acquired
           "opencog_bridge.py" "create_relationship" "{}" "to_entity" [] startup
           eq_refl Hin eq_refl).
Defined.

Lemma parameterless_ignore_payload_witness :
  In "get_opencog_version" parameterless
  /\ load Sample.json_loads "{}" = Ok (JObj [])
  /\ load Sample.json_loads Sample.concept_request = Ok (JObj [("concept", JStr "acct")])
  /\ main Sample.handle_of Sample.atom_str Sample.get_predicate Sample.py_str
       Sample.json_loads Acquired ["opencog_bridge.py"; "get_opencog_version"; "{}"]
       startup
     = main Sample.handle_of Sample.atom_str Sample.get_predicate Sample.py_str
         Sample.json_loads Acquired
         ["opencog_bridge.py"; "get_opencog_version"; Sample.concept_request] startup.
Proof.
  assert (Hin : In "get_opencog_version" parameterless).
  { simpl. tauto. }
  split; [exact Hin |]. split; [reflexivity |]. split; [reflexivity |].
  apply (@parameterless_ignore_payload Sample.handle_of Sample.atom_str
           Sample.get_predicate Sample.py_str Sample.json_loads Acquired
           "opencog_bridge.py" "get_opencog_version" "{}" Sample.concept_request
           (JObj []) (JObj [("concept", JStr "acct")]) startup Hin eq_refl eq_refl).
Defined.

Lemma usage_on_bad_arity_witness :
  List.length ["opencog_bridge.py"; "test_connection"] <> 3%nat
  /\ main Sample.handle_of Sample.atom_str Sample.get_predicate Sample.py_str
       Sample.json_loads Acquired ["opencog_bridge.py"; "test_connection"] startup
     = Some {| status := 1; stdout := [PrintText usage]; final := startup |}.
Proof.
  assert (H : List.length ["opencog_bridge.py"; "test_connection"] <> 3%nat)
    by (simpl; lia).
  split; [exact H |].
  apply (@usage_on_bad_arity Sample.handle_of Sample.atom_str Sample.get_predicate
           Sample.py_str Sample.json_loads Acquired
           ["opencog_bridge.py"; "test_connection"] startup H).
Defined.

Lemma cleared_store_answers_empty_witness :
  opencog_available Sample.running = true
  /\ atomspace Sample.running = Some Sample.ledger
  /\ fst (execute_pattern_matching Sample.handle_of Sample.atom_str "usd"
            (snd (clear_atomspace Sample.running))) = Ok []
  /\ fst (detect_anomalies Sample.handle_of Sample.atom_str 0%Q
            (snd (clear_atomspace Sample.running))) = Ok [].
Proof.
  split; [reflexivity |]. split; [reflexivity |].
  destruct (@cleared_store_answers_empty Sample.handle_of Sample.atom_str
              Sample.get_predicate Sample.running Sample.ledger "usd" "acct" 0%Q
              eq_refl eq_refl) as (_ & _ & Hp & Ha & _).
  split; [exact Hp | exact Ha].
Defined.


Lemma patterns_within_relationships_witness :
  (opencog_available Sample.running = true -> atomspace Sample.running <> None)
  /\ exists r patterns count,
       get_cognitive_insights Sample.get_predicate "acct" Sample.running
       = (Ok r, Sample.running)
       /\ field "behavioral_patterns" r = Some (JArr (map JStr patterns))
       /\ field "relationship_count" r = Some (JInt count)
       /\ Z.of_nat (List.length patterns) <= count.
Proof.
  assert (H : opencog_available Sample.running = true -> atomspace Sample.running <> None)
    by (intros _; discriminate).
  split; [exact H |].
  destruct (@patterns_within_relationships Sample.get_predicate "acct" Sample.running H)
    as (r & patterns & count & E & _ & Hp & Hc & Hle & _).
  exists r, patterns, count. repeat split; assumption.
Defined.

Lemma anomalies_exact_witness :
  opencog_available Sample.running = true
  /\ atomspace Sample.running = Some Sample.ledger
  /\ exists records,
       detect_anomalies Sample.handle_of Sample.atom_str (1 # 2)%Q Sample.running
       = (Ok records, Sample.running)
       /\ List.length records = 1%nat
       /\ forall r, In r records ->
            exists score, field "anomaly_score" r = Some (JFloat score)
                          /\ (1 # 2 < score)%Q.
Proof.
  split; [reflexivity |]. split; [reflexivity |].
  destruct (@anomalies_exact Sample.handle_of Sample.atom_str (1 # 2)%Q
              Sample.running Sample.ledger eq_refl eq_refl)
    as (records & E & Hr & _ & Hs & _).
  exists records. split; [exact E |]. split; [| exact Hs].
  rewrite Hr. reflexivity.
Defined.

Lemma empty_pattern_matches_all_witness :
  opencog_available Sample.running = true
  /\ atomspace Sample.running = Some Sample.ledger
  /\ true_count Sample.atom_str "" Sample.ledger = 3%nat.
Proof.
  split; [reflexivity |]. split; [reflexivity |].
  destruct (@empty_pattern_matches_all Sample.handle_of Sample.atom_str
              Sample.running Sample.ledger eq_refl eq_refl) as (H & _).
  exact H.
Defined.

Lemma pattern_case_insensitive_witness :
  opencog_available Sample.running = true
  /\ atomspace Sample.running = Some Sample.ledger
  /\ matching Sample.handle_of Sample.atom_str (lower "UsD") Sample.ledger
     = matching Sample.handle_of Sample.atom_str "UsD" Sample.ledger.
Proof.
  split; [reflexivity |]. split; [reflexivity |].
  destruct (@pattern_case_insensitive Sample.handle_of Sample.atom_str "UsD"
              Sample.running Sample.ledger eq_refl eq_refl) as (H & _).
  exact H.
Defined.

Lemma store_only_grows_witness :
  opencog_available Sample.running = true
  /\ atomspace Sample.running = Some Sample.ledger
  /\ is_clear (CreatePredicateNode "pays") = false
  /\ is_shutdown (CreatePredicateNode "pays") = false
  /\ exists sp',
       atomspace (snd (invoke Sample.handle_of Sample.atom_str Sample.get_predicate
                         Sample.py_str (CreatePredicateNode "pays") Sample.running))
       = Some sp'
       /\ (forall a, holds a Sample.ledger = true -> holds a sp' = true)
       /\ (List.length Sample.ledger <= List.length sp')%nat.
Proof.
  split; [reflexivity |]. split; [reflexivity |].
  split; [reflexivity |]. split; [reflexivity |].
  apply (@store_only_grows Sample.handle_of Sample.atom_str Sample.get_predicate
           Sample.py_str (CreatePredicateNode "pays") Sample.running Sample.ledger
           eq_refl eq_refl eq_refl eq_refl).
Defined.

Lemma mock_requests_succeed_witness :
  failed (ImportRaises (ImportError "No module named 'opencog'")) = true
  /\ atomspace startup = None
  /\ load Sample.json_loads Sample.concept_request = Ok (JObj [("concept", JStr "acct")])
  /\ carries [("concept", JStr "acct")] (CreateConceptNode "acct")
  /\ exists o,
       main Sample.handle_of Sample.atom_str Sample.get_predicate Sample.py_str
         Sample.json_loads (ImportRaises (ImportError "No module named 'opencog'"))
         ["opencog_bridge.py"; "create_concept_node"; Sample.concept_request] startup
       = Some o
       /\ status o = 0
       /\ stdout o = [PrintText "mock_concept_acct"]
       /\ opencog_available (final o) = false.
Proof.
  split; [reflexivity |]. split; [reflexivity |].
  split; [reflexivity |]. split; [reflexivity |].
  apply (@mock_requests_succeed Sample.handle_of Sample.atom_str Sample.get_predicate
           Sample.py_str Sample.json_loads
           (ImportRaises (ImportError "No module named 'opencog'"))
           "opencog_bridge.py" Sample.concept_request [("concept", JStr "acct")]
           (CreateConceptNode "acct") startup eq_refl eq_refl eq_refl eq_refl).
Defined.

Lemma pattern_selects_substrings_witness :
  opencog_available Sample.running = true
  /\ atomspace Sample.running = Some Sample.ledger
  /\ (In "(ConceptNode USD)" (matching Sample.handle_of Sample.atom_str "usd" Sample.ledger)
      <-> exists s, In s Sample.ledger /\ "(ConceptNode USD)" = Sample.handle_of (atom s)
                    /\ exists pre post,
                         lower (Sample.atom_str (atom s)) = pre ++ lower "usd" ++ post).
Proof.
  split; [reflexivity |]. split; [reflexivity |].
  destruct (@pattern_selects_substrings Sample.handle_of Sample.atom_str "usd"
              Sample.running Sample.ledger eq_refl eq_refl) as (H & _).
  exact (H "(ConceptNode USD)").
Defined.

Lemma entity_properties_are_counted_witness :
  opencog_available Sample.ready = true
  /\ atomspace Sample.ready = Some []
  /\ exists before after r r',
       fst (get_cognitive_insights Sample.get_predicate "acct" Sample.ready) = Ok r
       /\ field "relationship_count" r = Some (JInt (Z.of_nat before))
       /\ fst (get_cognitive_insights Sample.get_predicate "acct"
                 (snd (add_transaction_entity Sample.handle_of Sample.py_str "acct"
                         [("amount", JInt 100); ("currency", JStr "USD")] Sample.ready)))
          = Ok r'
       /\ field "relationship_count" r' = Some (JInt (Z.of_nat after))
       /\ (before <= after <= before + 2)%nat
       /\ (1 <= after)%nat.
Proof.
  split; [reflexivity |]. split; [reflexivity |].
  destruct (@entity_properties_are_counted Sample.handle_of Sample.get_predicate
              Sample.py_str "acct" [("amount", JInt 100); ("currency", JStr "USD")]
              Sample.ready [] eq_refl eq_refl)
    as (before & after & r & r' & H1 & H2 & H3 & H4 & H5 & H6).
  exists before, after, r, r'. repeat split; try assumption; try apply H5.
  apply H6. discriminate.
Defined.

Lemma operation_raises_without_handle_witness :
  opencog_available {| atomspace := None; opencog_available := true; log := [] |} = true
  /\ atomspace {| atomspace := None; opencog_available := true; log := [] |} = None
  /\ (exists e,
        fst (invoke Sample.handle_of Sample.atom_str Sample.get_predicate Sample.py_str
               ClearAtomspace
               {| atomspace := None; opencog_available := true; log := [] |})
        = Raise e)
  /\ ~ (exists e,
          fst (invoke Sample.handle_of Sample.atom_str Sample.get_predicate Sample.py_str
                 (RunPlnInference "risk" 2)
                 {| atomspace := None; opencog_available := true; log := [] |})
          = Raise e).
Proof.
  split; [reflexivity |]. split; [reflexivity |]. split.
  - apply (@operation_raises_without_handle Sample.handle_of Sample.atom_str
             Sample.get_predicate Sample.py_str ClearAtomspace
             {| atomspace := None; opencog_available := true; log := [] |}
             eq_refl eq_refl).
    reflexivity.
  - intros H.
    apply (@operation_raises_without_handle Sample.handle_of Sample.atom_str
             Sample.get_predicate Sample.py_str (RunPlnInference "risk" 2)
             {| atomspace := None; opencog_available := true; log := [] |}
             eq_refl eq_refl) in H.
    discriminate H.
Defined.
